(** * A shallow embedding of the CDN upload service

    The repository holds two variants of one Express application:

    - [src/api/index.js], embedded in [Module Api];
    - [src/unnamed/part_000], embedded in [Module Part000].

    Both keep uploaded files in a process-wide JavaScript [Map] from a
    generated identifier to a file-info object and expose that map through a
    handful of HTTP routes.

    Modelling boundary.  Handlers are translated statement by statement.
    What they call into is modelled as follows:

    - a string is the UTF-8 encoding of the JavaScript string it stands
      for;
    - a JavaScript object is an ordered list of own properties, and the
      body given to [res.json] is that value before serialisation;
    - a [Map] is an association list in key insertion order;
    - [crypto.randomBytes] reads an entropy oracle, [new Date()] a clock,
      both supplied with every request;
    - [multer.memoryStorage()] with [upload.single('file')] is reduced to
      what it does with a multipart body that carries at most one file
      part: a part without a file name is skipped, a part in another field
      than [file] is refused with [LIMIT_UNEXPECTED_FILE], a part that
      reaches [limits.fileSize] bytes is refused with [LIMIT_FILE_SIZE], and
      an accepted part is buffered whole, [size] being the number of
      buffered bytes and a missing part type reading [text/plain];
    - [res.setHeader] throws on [undefined] and on a value with a character
      outside tab, printable ASCII and Latin-1; the [try] block of the file
      handler is the only one holding a call that can throw on the values
      it meets, so it alone is modelled with its [catch] branch;
    - [express.json] and [express.urlencoded] either pass a request on
      untouched or refuse its body, and a refused body is a request of its
      own kind ([Unparsable]); [express.static] passes every request on;
    - the [headers] of a response are those the application sets itself
      with [res.setHeader]; what Express adds on its own when it sends
      ([Content-Type], [Content-Length], [ETag]) is not recorded;
    - requests are plain: [HEAD] requests and conditional requests
      ([If-None-Match], [If-Modified-Since]) are not modelled. *)

From Stdlib Require Import ZArith List String Ascii Bool Lia.
From Stdlib Require Import Strings.Byte DecimalString.
Import ListNotations.

Set Warnings "-register-all".

Local Open Scope string_scope.
Local Open Scope Z_scope.

(** ** JavaScript values, objects and [Map] *)

Module JS.

(** Values that flow through the handlers. [VDate] carries the instant in
    the form [toISOString] prints it. *)
Inductive value : Type :=
| VUndefined
| VBool (b : bool)
| VNum (n : Z)
| VStr (s : string)
| VBuffer (bytes : list byte)
| VDate (iso : string)
| VObj (props : list (string * value))
| VArr (items : list value).

Definition obj : Type := list (string * value).

(** [o.k]: the first own property named [k], [undefined] when absent. *)
Fixpoint get_prop (k : string) (o : obj) : value :=
  match o with
  | [] => VUndefined
  | (k', v) :: o' => if String.eqb k k' then v else get_prop k o'
  end.

Fixpoint has_prop (k : string) (o : obj) : bool :=
  match o with
  | [] => false
  | (k', _) :: o' => String.eqb k k' || has_prop k o'
  end.

(** [const { k, ...rest } = o]: [rest] keeps every own property but [k],
    in their order. *)
Definition rest_without (k : string) (o : obj) : obj :=
  filter (fun p => negb (String.eqb k (fst p))) o.

(** Truthiness, as [!v] and [a || b] test it. *)
Definition truthy (v : value) : bool :=
  match v with
  | VUndefined => false
  | VBool b => b
  | VNum n => negb (Z.eqb n 0)
  | VStr EmptyString => false
  | _ => true
  end.

(** [a || b]. *)
Definition js_or (a b : value) : value :=
  if truthy a then a else b.

(** What a template literal prints for [v]. The handlers interpolate header
    values and record properties that are strings or [undefined]; these,
    booleans, integers and plain objects print as in JavaScript. A date
    prints in its ISO form here, a buffer and an array print as the empty
    string. *)
Definition interpolate (v : value) : string :=
  match v with
  | VUndefined => "undefined"
  | VBool true => "true"
  | VBool false => "false"
  | VNum n => DecimalString.NilZero.string_of_int (Z.to_int n)
  | VStr s => s
  | VDate iso => iso
  | VObj _ => "[object Object]"
  | VBuffer _ => EmptyString
  | VArr _ => EmptyString
  end.

(** *** [Map] with string keys, in insertion order *)

Definition Map (V : Type) : Type := list (string * V).

Definition Map_new {V : Type} : Map V := [].

Fixpoint Map_get {V : Type} (k : string) (m : Map V) : option V :=
  match m with
  | [] => None
  | (k', v) :: m' => if String.eqb k k' then Some v else Map_get k m'
  end.

Definition Map_has {V : Type} (k : string) (m : Map V) : bool :=
  match Map_get k m with
  | Some _ => true
  | None => false
  end.

(** [m.set(k, v)]: an existing key keeps its position and takes the new
    value, a new key goes last. *)
Fixpoint Map_set {V : Type} (k : string) (v : V) (m : Map V) : Map V :=
  match m with
  | [] => [(k, v)]
  | (k', v') :: m' =>
      if String.eqb k k' then (k', v) :: m' else (k', v') :: Map_set k v m'
  end.

(** [m.delete(k)]: the map without [k], and whether [k] was there. *)
Definition Map_remove {V : Type} (k : string) (m : Map V) : Map V :=
  filter (fun p => negb (String.eqb k (fst p))) m.

Definition Map_delete {V : Type} (k : string) (m : Map V) : Map V * bool :=
  (Map_remove k m, Map_has k m).

Definition Map_values {V : Type} (m : Map V) : list V := map snd m.

Definition Map_keys {V : Type} (m : Map V) : list string := map fst m.

(** The representation invariant: keys are pairwise distinct. *)
Definition Map_wf {V : Type} (m : Map V) : Prop := NoDup (Map_keys m).

Definition Map_size {V : Type} (m : Map V) : Z := Z.of_nat (List.length m).

End JS.

(** ** [crypto.randomBytes(n).toString('hex')] *)

Module Crypto.

(** The entropy source seen by one request. *)
Definition entropy : Type := nat -> byte.

Definition randomBytes (n : nat) (e : entropy) : list byte :=
  map e (seq 0 n).

Definition hex_digit (n : N) : ascii :=
  match n with
  | 0%N => "0" | 1%N => "1" | 2%N => "2" | 3%N => "3"
  | 4%N => "4" | 5%N => "5" | 6%N => "6" | 7%N => "7"
  | 8%N => "8" | 9%N => "9" | 10%N => "a" | 11%N => "b"
  | 12%N => "c" | 13%N => "d" | 14%N => "e" | _ => "f"
  end%char.

(** [Buffer.prototype.toString('hex')]: two lowercase digits per byte,
    high nibble first. *)
Fixpoint toString_hex (b : list byte) : string :=
  match b with
  | [] => EmptyString
  | x :: b' =>
      String (hex_digit (N.div (Byte.to_N x) 16))
        (String (hex_digit (N.modulo (Byte.to_N x) 16)) (toString_hex b'))
  end.

Definition is_hex_digit (c : ascii) : bool :=
  let n := N_of_ascii c in
  ((48 <=? n)%N && (n <=? 57)%N) || ((97 <=? n)%N && (n <=? 102)%N).

Fixpoint all_hex (s : string) : bool :=
  match s with
  | EmptyString => true
  | String c s' => is_hex_digit c && all_hex s'
  end.

Definition hex_value (c : ascii) : option N :=
  let n := N_of_ascii c in
  if ((48 <=? n)%N && (n <=? 57)%N) then Some (n - 48)%N
  else if ((97 <=? n)%N && (n <=? 102)%N) then Some (n - 87)%N
  else None.

(** Decoder used to show that the hex encoding loses nothing. *)
Fixpoint parse_hex (s : string) : option (list byte) :=
  match s with
  | EmptyString => Some []
  | String hi (String lo s') =>
      match hex_value hi, hex_value lo, parse_hex s' with
      | Some h, Some l, Some b' =>
          match Byte.of_N (h * 16 + l) with
          | Some x => Some (x :: b')
          | None => None
          end
      | _, _, _ => None
      end
  | String _ EmptyString => None
  end.

End Crypto.

(** ** The multer middleware, memory storage, single file *)

Module Multer.
Import JS.

(** The file part of a multipart body, as multer's parser reads it: the
    field it is in, its file name as decoded from the part's
    [Content-Disposition], the media type read from the part's
    [Content-Type] (empty when the part declares none) and its content. *)
Record Part : Type := {
  part_fieldname : string;
  part_filename : string;
  part_mimetype : string;
  part_data : list byte
}.

(** [req.file]. *)
Record File : Type := {
  originalname : string;
  mimetype : string;
  size : Z;
  buffer : list byte
}.

(** What a middleware hands to [next(err)]: a [MulterError] with its code,
    or another error with the [status] it carries, if any. *)
Inductive Error : Type :=
| MulterError (code : string)
| OtherError (status : option Z).

(** [multer.memoryStorage()]: the part is kept whole in a buffer and its
    size is the buffer's length. A part that declares no type is handed
    over as [text/plain]. *)
Definition memoryStorage (p : Part) : File :=
  {| originalname := part_filename p;
     mimetype :=
       match part_mimetype p with
       | EmptyString => "text/plain"
       | declared => declared
       end;
     size := Z.of_nat (List.length (part_data p));
     buffer := part_data p |}.

(** [multer({ storage, limits: { fileSize } }).single('file')] on a body
    with at most one file part. A part without a file name is skipped; a
    part in another field is refused; a part that reaches [fileSize] bytes
    is refused. *)
Definition single (fileSize : Z) (body : option Part)
  : Error + option File :=
  match body with
  | None => inr None
  | Some p =>
      if negb (truthy (VStr (part_filename p))) then inr None
      else if negb (String.eqb (part_fieldname p) "file")
      then inl (MulterError "LIMIT_UNEXPECTED_FILE")
      else if fileSize <=? Z.of_nat (List.length (part_data p))
      then inl (MulterError "LIMIT_FILE_SIZE")
      else inr (Some (memoryStorage p))
  end.

End Multer.

(** ** Requests and responses *)

Module Express.
Import JS.

(** The paths the applications register routes on. *)
Inductive RoutedPath : Type :=
| Path_upload
| Path_file (fileId : string)
| Path_info (fileId : string)
| Path_files
| Path_health
| Path_api.

(** A request, by what the middleware stack does with it: one of the
    routed method and path pairs; an [OPTIONS] request on a routed path; a
    request whose JSON or urlencoded body the body parsers refuse, with the
    status they attach to their error; any other request. *)
Inductive Route : Type :=
| POST_upload (body : option Multer.Part)
| GET_file (fileId : string)
| GET_info (fileId : string)
| GET_files
| DELETE_file (fileId : string)
| GET_health
| GET_api
| OPTIONS_on (path : RoutedPath)
| Unparsable (status : Z)
| Other.

Record Request : Type := {
  route : Route;
  req_headers : Map string
}.

(** [req.headers[name]]. *)
Definition header (req : Request) (name : string) : value :=
  match Map_get name (req_headers req) with
  | Some s => VStr s
  | None => VUndefined
  end.

(** What the process reads from its surroundings while it serves one
    request. *)
Record Env : Type := {
  entropy : Crypto.entropy;
  now : string;
  memoryUsage : value;
  NODE_ENV : value
}.

Inductive Body : Type :=
| NoBody
| Json (v : value)
| Sent (v : value)
| DefaultPage.

(** A response: its status, the headers the application has set on it, and
    its body. *)
Record Response : Type := {
  status : Z;
  headers : Map value;
  body : Body
}.

Definition fresh : Response :=
  {| status := 200; headers := Map_new; body := NoBody |}.

Definition dquote : string := String "034"%char EmptyString.

(** The characters a header value may hold: tab, printable ASCII and
    Latin-1 (U+0080 to U+00FF, two bytes led by 194 or 195 in UTF-8). *)
Fixpoint header_text_ok (s : string) : bool :=
  match s with
  | EmptyString => true
  | String c s' =>
      let n := N_of_ascii c in
      if ((n =? 9) || ((32 <=? n) && (n <=? 126)))%N then header_text_ok s'
      else if ((n =? 194) || (n =? 195))%N then
        match s' with
        | String c' s'' =>
            let m := N_of_ascii c' in
            ((128 <=? m) && (m <=? 191))%N && header_text_ok s''
        | EmptyString => false
        end
      else false
  end.

(** What running a piece of a handler on the response comes to: it ends, or
    it throws with the response as it then is. *)
Inductive Outcome : Type :=
| Done (res : Response)
| Thrown (res : Response) (message : string).

Definition and_then (o : Outcome) (k : Response -> Outcome) : Outcome :=
  match o with
  | Done res => k res
  | Thrown res message => Thrown res message
  end.

Notation "res <- o ;; k" := (and_then o (fun res => k))
  (at level 61, o at next level, right associativity).

(** [try { ... } catch (error) { handler }]. *)
Definition catch (o : Outcome) (handler : Response -> string -> Response)
  : Response :=
  match o with
  | Done res => res
  | Thrown res message => handler res message
  end.

(** [res.setHeader(name, v)]. *)
Definition setHeader (name : string) (v : value) (res : Response) : Outcome :=
  match v with
  | VUndefined =>
      Thrown res
        ("Invalid value " ++ dquote ++ "undefined" ++ dquote
         ++ " for header " ++ dquote ++ name ++ dquote)
  | _ =>
      if header_text_ok (interpolate v) then
        Done {| status := status res;
                headers := Map_set name v (headers res);
                body := body res |}
      else
        Thrown res
          ("Invalid character in header content [" ++ dquote ++ name
           ++ dquote ++ "]")
  end.

Definition set_status (code : Z) (res : Response) : Response :=
  {| status := code; headers := headers res; body := body res |}.

(** [res.json(v)]: the body. The [Content-Type], [Content-Length] and
    [ETag] Express computes as it sends are its own and are not among the
    [headers] recorded here. *)
Definition json (v : value) (res : Response) : Response :=
  {| status := status res; headers := headers res; body := Json v |}.

(** [res.send(v)]: the body, under the same convention. *)
Definition send (v : value) (res : Response) : Response :=
  {| status := status res; headers := headers res; body := Sent v |}.

(** Express's own last resort: an HTML page, 404 when no route matched and,
    when an error reached the end of the stack, the status the error
    carries if it is an error status, 500 otherwise. *)
Definition finalhandler (code : Z) (res : Response) : Response :=
  {| status := code; headers := headers res; body := DefaultPage |}.

Definition error_status (error : Multer.Error) : Z :=
  match error with
  | Multer.OtherError (Some s) =>
      if (400 <=? s) && (s <? 600) then s else 500
  | _ => 500
  end.

(** The methods Express lists when it answers an [OPTIONS] request on a
    path whose routes are all [GET] routes, or on the upload path. *)
Definition allowed_methods (path : RoutedPath) : string :=
  match path with
  | Path_upload => "POST"
  | _ => "GET,HEAD"
  end.

Definition is_server_error (res : Response) : bool :=
  (500 <=? status res) && (status res <=? 599).

(** The [error] code of a JSON error envelope. *)
Definition error_code (res : Response) : value :=
  match body res with
  | Json (VObj o) => get_prop "error" o
  | _ => VUndefined
  end.

(** The [data] member of a JSON success envelope. *)
Definition data_of (res : Response) : value :=
  match body res with
  | Json (VObj o) => get_prop "data" o
  | _ => VUndefined
  end.

End Express.
(** ** [src/api/index.js] *)

Module Api.
Import JS Express.

(** [const upload = multer({ storage, limits: { fileSize: 20MB, files: 5 } })]
    followed by [upload.single('file')]. *)
Definition upload (body : option Multer.Part)
  : Multer.Error + option Multer.File :=
  Multer.single (20 * 1024 * 1024) body.

(** [const fileDatabase = new Map()]. *)
Record State : Type := { fileDatabase : Map obj }.

Definition init : State := {| fileDatabase := Map_new |}.

(** The middleware that opens every response to other origins. *)
Definition cors (res : Response) : Outcome :=
  res <- setHeader "Access-Control-Allow-Origin" (VStr "*") res ;;
  res <- setHeader "Access-Control-Allow-Methods"
           (VStr "GET, POST, PUT, DELETE, OPTIONS") res ;;
  setHeader "Access-Control-Allow-Headers"
    (VStr "Content-Type, Authorization") res.

Definition getBaseUrl (req : Request) : string :=
  let host := js_or (header req "x-forwarded-host") (header req "host") in
  let protocol := js_or (header req "x-forwarded-proto") (VStr "https") in
  interpolate protocol ++ "://" ++ interpolate host.

(** [GET /api/health]. *)
Definition get_health (env : Env) (res : Response) : Response :=
  json (VObj [("status", VStr "OK");
              ("timestamp", VStr (now env));
              ("platform", VStr "Vercel");
              ("memory", memoryUsage env)]) res.

(** [GET /api]. *)
Definition get_api (res : Response) : Response :=
  json (VObj [("message", VStr "CDN Backend API is running on Vercel!");
              ("endpoints",
               VObj [("upload", VStr "POST /api/upload");
                     ("getFile", VStr "GET /api/file/:id");
                     ("fileInfo", VStr "GET /api/info/:id");
                     ("listFiles", VStr "GET /api/files");
                     ("health", VStr "GET /api/health")]);
              ("limits",
               VObj [("maxFileSize", VStr "20MB");
                     ("maxFiles", VStr "5 per request")])]) res.

(** The object literal bound to [fileInfo] in the upload handler. *)
Definition make_fileInfo (env : Env) (req : Request) (file : Multer.File)
  : string * obj :=
  let fileId := Crypto.toString_hex (Crypto.randomBytes 16 (entropy env)) in
  let baseUrl := getBaseUrl req in
  (fileId,
   [("id", VStr fileId);
    ("originalName", js_or (VStr (Multer.originalname file)) (VStr "unknown"));
    ("filename", VStr fileId);
    ("mimetype",
     js_or (VStr (Multer.mimetype file)) (VStr "application/octet-stream"));
    ("size", VNum (Multer.size file));
    ("uploadDate", VStr (now env));
    ("buffer", VBuffer (Multer.buffer file));
    ("url", VStr (baseUrl ++ "/api/file/" ++ fileId))]).

(** [POST /api/upload], after [upload.single('file')] has let the request
    through with [req.file] set to [file]. *)
Definition post_upload (env : Env) (req : Request) (file : option Multer.File)
    (st : State) (res : Response) : State * Response :=
  match file with
  | None =>
      (st, json (VObj [("error", VStr "NO_FILE");
                       ("message", VStr "Tidak ada file yang diupload")])
             (set_status 400 res))
  | Some f =>
      if 20 * 1024 * 1024 <? Multer.size f then
        (st, json (VObj [("error", VStr "FILE_TOO_LARGE");
                         ("message", VStr "File terlalu besar. Maksimal 20MB")])
               (set_status 400 res))
      else
        let (fileId, fileInfo) := make_fileInfo env req f in
        ({| fileDatabase := Map_set fileId fileInfo (fileDatabase st) |},
         json (VObj [("success", VBool true);
                     ("message", VStr "File berhasil diupload");
                     ("data",
                      VObj [("id", get_prop "id" fileInfo);
                            ("originalName", get_prop "originalName" fileInfo);
                            ("mimetype", get_prop "mimetype" fileInfo);
                            ("size", get_prop "size" fileInfo);
                            ("url", get_prop "url" fileInfo);
                            ("uploadDate", get_prop "uploadDate" fileInfo)])])
           res)
  end.

Definition file_not_found (res : Response) : Response :=
  json (VObj [("error", VStr "FILE_NOT_FOUND");
              ("message", VStr "File tidak ditemukan")])
    (set_status 404 res).

(** [GET /api/file/:fileId]: the [try] block, then its [catch]. *)
Definition get_file (fileId : string) (st : State) (res : Response)
  : Response :=
  catch
    match Map_get fileId (fileDatabase st) with
    | None => Done (file_not_found res)
    | Some fileInfo =>
        res <- setHeader "Content-Type" (get_prop "mimetype" fileInfo) res ;;
        res <- setHeader "Content-Length" (get_prop "size" fileInfo) res ;;
        res <- setHeader "Content-Disposition"
                 (VStr ("inline; filename=" ++ dquote
                        ++ interpolate (get_prop "originalName" fileInfo)
                        ++ dquote))
                 res ;;
        res <- setHeader "Cache-Control" (VStr "public, max-age=3600") res ;;
        res <- setHeader "Access-Control-Expose-Headers"
                 (VStr "Content-Type, Content-Length") res ;;
        Done (send (get_prop "buffer" fileInfo) res)
    end
    (fun res _ =>
       json (VObj [("error", VStr "RETRIEVAL_FAILED");
                   ("message", VStr "Gagal mengambil file")])
         (set_status 500 res)).

(** [GET /api/info/:fileId]. *)
Definition get_info (fileId : string) (st : State) (res : Response)
  : Response :=
  match Map_get fileId (fileDatabase st) with
  | None => file_not_found res
  | Some fileInfo =>
      let fileInfoWithoutBuffer := rest_without "buffer" fileInfo in
      json (VObj [("success", VBool true);
                  ("data", VObj fileInfoWithoutBuffer)]) res
  end.

(** [GET /api/files]. *)
Definition get_files (st : State) (res : Response) : Response :=
  let files :=
    map (fun file => VObj (rest_without "buffer" file))
      (Map_values (fileDatabase st)) in
  json (VObj [("success", VBool true);
              ("count", VNum (Z.of_nat (List.length files)));
              ("data", VArr files)]) res.

(** [DELETE /api/file/:fileId]. *)
Definition delete_file (fileId : string) (st : State) (res : Response)
  : State * Response :=
  let (db, deleted) := Map_delete fileId (fileDatabase st) in
  if deleted then
    ({| fileDatabase := db |},
     json (VObj [("success", VBool true);
                 ("message", VStr "File berhasil dihapus")]) res)
  else
    ({| fileDatabase := db |}, file_not_found res).

(** The four-argument error-handling middleware. *)
Definition error_middleware (error : Multer.Error) (res : Response)
  : Response :=
  match error with
  | Multer.MulterError code =>
      if String.eqb code "LIMIT_FILE_SIZE" then
        json (VObj [("error", VStr "FILE_TOO_LARGE");
                    ("message", VStr "File terlalu besar")])
          (set_status 400 res)
      else
        json (VObj [("error", VStr "INTERNAL_SERVER_ERROR");
                    ("message", VStr "Terjadi kesalahan internal")])
          (set_status 500 res)
  | Multer.OtherError _ =>
      json (VObj [("error", VStr "INTERNAL_SERVER_ERROR");
                  ("message", VStr "Terjadi kesalahan internal")])
        (set_status 500 res)
  end.

(** [app.use('*', ...)], the catch-all. *)
Definition endpoint_not_found (res : Response) : Response :=
  json (VObj [("error", VStr "ENDPOINT_NOT_FOUND");
              ("message", VStr "Endpoint tidak ditemukan")])
    (set_status 404 res).

(** The routes run on the response the cross-origin middleware hands on;
    had that middleware thrown, its error would go to the error-handling
    middleware. *)
Definition opened (st : State) (k : Response -> State * Response)
  : State * Response :=
  match cors fresh with
  | Done res => k res
  | Thrown res _ => (st, error_middleware (Multer.OtherError None) res)
  end.

(** The middleware stack, in registration order, on one request: the body
    parsers, the cross-origin middleware, the routes, the error-handling
    middleware and the catch-all. An error of the body parsers skips to the
    error-handling middleware. *)
Definition app (env : Env) (req : Request) (st : State) : State * Response :=
  match route req with
  | Unparsable status =>
      (st, error_middleware (Multer.OtherError (Some status)) fresh)
  | GET_health => opened st (fun res => (st, get_health env res))
  | GET_api => opened st (fun res => (st, get_api res))
  | POST_upload body =>
      opened st (fun res =>
        match upload body with
        | inl error => (st, error_middleware error res)
        | inr file => post_upload env req file st res
        end)
  | GET_file fileId => opened st (fun res => (st, get_file fileId st res))
  | GET_info fileId => opened st (fun res => (st, get_info fileId st res))
  | GET_files => opened st (fun res => (st, get_files st res))
  | DELETE_file fileId => opened st (fun res => delete_file fileId st res)
  | OPTIONS_on _ => opened st (fun res => (st, endpoint_not_found res))
  | Other => opened st (fun res => (st, endpoint_not_found res))
  end.

(** The requests of one process lifetime, served one after another. *)
Fixpoint run (reqs : list (Env * Request)) (st : State) : State :=
  match reqs with
  | [] => st
  | (env, req) :: reqs' => run reqs' (fst (app env req st))
  end.

End Api.

(** ** [src/unnamed/part_000] *)

Module Part000.
Import JS Express.

(** [multer({ storage, limits: { fileSize: 25MB }, fileFilter })] followed
    by [upload.single('file')]; the filter accepts every file. *)
Definition upload (body : option Multer.Part)
  : Multer.Error + option Multer.File :=
  Multer.single (25 * 1024 * 1024) body.

(** [let fileDatabase = new Map()]. *)
Record State : Type := { fileDatabase : Map obj }.

Definition init : State := {| fileDatabase := Map_new |}.

Definition generateFileUrl (req : Request) (filename : string) : string :=
  let protocol := js_or (header req "x-forwarded-proto") (VStr "https") in
  let host := js_or (header req "x-forwarded-host") (header req "host") in
  interpolate protocol ++ "://" ++ interpolate host
    ++ "/api/file/" ++ filename.

(** The object literal bound to [fileInfo] in the upload handler. *)
Definition make_fileInfo (env : Env) (req : Request) (file : Multer.File)
  : string * obj :=
  let fileId := Crypto.toString_hex (Crypto.randomBytes 16 (entropy env)) in
  (fileId,
   [("id", VStr fileId);
    ("originalName", VStr (Multer.originalname file));
    ("filename", VStr fileId);
    ("mimetype", VStr (Multer.mimetype file));
    ("size", VNum (Multer.size file));
    ("uploadDate", VDate (now env));
    ("buffer", VBuffer (Multer.buffer file));
    ("url", VStr (generateFileUrl req fileId))]).

(** [POST /api/upload], after [upload.single('file')]. *)
Definition post_upload (env : Env) (req : Request) (file : option Multer.File)
    (st : State) (res : Response) : State * Response :=
  match file with
  | None =>
      (st, json (VObj [("error", VStr "No file uploaded")])
             (set_status 400 res))
  | Some f =>
      let (fileId, fileInfo) := make_fileInfo env req f in
      ({| fileDatabase := Map_set fileId fileInfo (fileDatabase st) |},
       json (VObj [("success", VBool true);
                   ("message", VStr "File uploaded successfully");
                   ("data", VObj fileInfo)]) res)
  end.

Definition file_not_found (res : Response) : Response :=
  json (VObj [("error", VStr "File not found")]) (set_status 404 res).

(** [GET /api/file/:fileId]: the [try] block, then its [catch]. *)
Definition get_file (fileId : string) (st : State) (res : Response)
  : Response :=
  catch
    match Map_get fileId (fileDatabase st) with
    | None => Done (file_not_found res)
    | Some fileInfo =>
        res <- setHeader "Content-Type" (get_prop "mimetype" fileInfo) res ;;
        res <- setHeader "Content-Disposition"
                 (VStr ("inline; filename=" ++ dquote
                        ++ interpolate (get_prop "originalName" fileInfo)
                        ++ dquote))
                 res ;;
        res <- setHeader "Cache-Control" (VStr "public, max-age=3600") res ;;
        res <- setHeader "Access-Control-Allow-Origin" (VStr "*") res ;;
        Done (send (get_prop "buffer" fileInfo) res)
    end
    (fun res message =>
       json (VObj [("error", VStr "File retrieval failed");
                   ("details", VStr message)])
         (set_status 500 res)).

(** [GET /api/info/:fileId]. *)
Definition get_info (fileId : string) (st : State) (res : Response)
  : Response :=
  match Map_get fileId (fileDatabase st) with
  | None => file_not_found res
  | Some fileInfo =>
      let fileInfoWithoutBuffer := rest_without "buffer" fileInfo in
      json (VObj [("success", VBool true);
                  ("data", VObj fileInfoWithoutBuffer)]) res
  end.

(** [GET /api/files]. *)
Definition get_files (st : State) (res : Response) : Response :=
  let files :=
    map (fun file => VObj (rest_without "buffer" file))
      (Map_values (fileDatabase st)) in
  json (VObj [("success", VBool true); ("data", VArr files)]) res.

(** [GET /api/health]. *)
Definition get_health (env : Env) (st : State) (res : Response) : Response :=
  json (VObj [("status", VStr "OK");
              ("timestamp", VStr (now env));
              ("filesCount", VNum (Map_size (fileDatabase st)));
              ("environment", NODE_ENV env)]) res.

(** [GET /api]. *)
Definition get_api (res : Response) : Response :=
  json (VObj [("message", VStr "CDN Backend API is running!");
              ("endpoints",
               VObj [("upload", VStr "POST /api/upload");
                     ("getFile", VStr "GET /api/file/:id");
                     ("fileInfo", VStr "GET /api/info/:id");
                     ("listFiles", VStr "GET /api/files");
                     ("health", VStr "GET /api/health")])]) res.

(** The middleware stack on one request: the JSON body parser, then the
    routes. This file registers neither an error-handling middleware nor a
    catch-all, and no [DELETE] route: an error of the body parser or of
    multer and an unmatched request end in Express's [finalhandler], and
    an [OPTIONS] request on a routed path is answered by the router with
    the methods of that path. *)
Definition app (env : Env) (req : Request) (st : State) : State * Response :=
  let res := fresh in
  match route req with
  | Unparsable status =>
      (st, finalhandler (error_status (Multer.OtherError (Some status))) res)
  | POST_upload body =>
      match upload body with
      | inl error => (st, finalhandler (error_status error) res)
      | inr file => post_upload env req file st res
      end
  | GET_file fileId => (st, get_file fileId st res)
  | GET_info fileId => (st, get_info fileId st res)
  | GET_files => (st, get_files st res)
  | GET_health => (st, get_health env st res)
  | GET_api => (st, get_api res)
  | OPTIONS_on path => (st, send (VStr (allowed_methods path)) res)
  | DELETE_file _ => (st, finalhandler 404 res)
  | Other => (st, finalhandler 404 res)
  end.

Fixpoint run (reqs : list (Env * Request)) (st : State) : State :=
  match reqs with
  | [] => st
  | (env, req) :: reqs' => run reqs' (fst (app env req st))
  end.

End Part000.


(** ** Vocabulary of the properties *)

Module Props.
Import JS Express.

(** The identifier a successful upload response announces. *)
Definition uploaded_id (res : Response) : option string :=
  match data_of res with
  | VObj d =>
      match get_prop "id" d with
      | VStr fileId => Some fileId
      | _ => None
      end
  | _ => None
  end.

(** A response value is a summary without payload: an object with no own
    property [buffer]. *)
Definition payload_free (v : value) : bool :=
  match v with
  | VObj o => negb (has_prop "buffer" o)
  | _ => false
  end.

(** A response carries no payload field: it is not a raw send, its JSON
    envelope has no own property [buffer], and neither has its [data]
    object nor any item of its [data] array. *)
Definition response_payload_free (res : Response) : bool :=
  match body res with
  | Json (VObj o) =>
      negb (has_prop "buffer" o)
      && match get_prop "data" o with
         | VObj d => negb (has_prop "buffer" d)
         | VArr items => forallb payload_free items
         | _ => true
         end
  | Json _ => true
  | Sent _ => false
  | NoBody => true
  | DefaultPage => true
  end.

(** The items of a listing. *)
Definition listing (res : Response) : option (list value) :=
  match data_of res with
  | VArr items => Some items
  | _ => None
  end.

(** The [size] of a record is the length of its [buffer]. *)
Definition size_matches (fileInfo : obj) : bool :=
  match get_prop "size" fileInfo, get_prop "buffer" fileInfo with
  | VNum n, VBuffer b => Z.eqb n (Z.of_nat (List.length b))
  | _, _ => false
  end.

Definition sizes_match (db : Map obj) : bool :=
  forallb (fun entry => size_matches (snd entry)) db.

Definition upload_request (hdrs : Map string) (body : option Multer.Part)
  : Request :=
  {| route := POST_upload body; req_headers := hdrs |}.

Definition request (hdrs : Map string) (r : Route) : Request :=
  {| route := r; req_headers := hdrs |}.

(** *** Insertion order, as a specification

    What a request does to the store, and the surviving records kept in the
    order in which they were inserted: an upload puts its record last
    (displacing any record it overwrites), a delete takes a record out. *)

Inductive Event : Type :=
| Put (fileId : string) (fileInfo : obj)
| Remove (fileId : string).

Definition survive (live : list (string * obj)) (ev : Event)
  : list (string * obj) :=
  match ev with
  | Put fileId fileInfo => Map_remove fileId live ++ [(fileId, fileInfo)]
  | Remove fileId => Map_remove fileId live
  end.

Definition survivors (log : list Event) : list (string * obj) :=
  fold_left survive log [].

(** No upload of the log draws an identifier that is in the store at that
    moment. *)
Fixpoint collision_free_from (live : list (string * obj)) (log : list Event)
  : bool :=
  match log with
  | [] => true
  | ev :: log' =>
      match ev with
      | Put fileId _ => negb (Map_has fileId live)
      | Remove _ => true
      end && collision_free_from (survive live ev) log'
  end.

Definition collision_free (log : list Event) : bool :=
  collision_free_from [] log.

(** The summary [GET /api/files] prints for a record. *)
Definition summary (fileInfo : obj) : value :=
  VObj (rest_without "buffer" fileInfo).

(** The [originalName] of each item of a listing, in order. *)
Definition names_of (items : list value) : list value :=
  map (fun item =>
         match item with
         | VObj o => get_prop "originalName" o
         | _ => VUndefined
         end) items.

(** The store event of a request served by [src/api/index.js]: the record
    its upload handler files when multer hands it a file within the
    handler's own bound, the identifier its delete handler is asked to
    remove. *)
Definition api_event (env : Env) (req : Request) : option Event :=
  match route req with
  | POST_upload body =>
      match Api.upload body with
      | inr (Some f) =>
          if 20 * 1024 * 1024 <? Multer.size f then None
          else
            let (fileId, fileInfo) := Api.make_fileInfo env req f in
            Some (Put fileId fileInfo)
      | _ => None
      end
  | DELETE_file fileId => Some (Remove fileId)
  | _ => None
  end.

(** The store event of a request served by [src/unnamed/part_000]. *)
Definition part000_event (env : Env) (req : Request) : option Event :=
  match route req with
  | POST_upload body =>
      match Part000.upload body with
      | inr (Some f) =>
          let (fileId, fileInfo) := Part000.make_fileInfo env req f in
          Some (Put fileId fileInfo)
      | _ => None
      end
  | _ => None
  end.

(** The store after a request, as the effect of its store event. *)
Definition apply_event (ev : option Event) (db : Map obj) : Map obj :=
  match ev with
  | Some (Put fileId fileInfo) => Map_set fileId fileInfo db
  | Some (Remove fileId) => Map_remove fileId db
  | None => db
  end.

Fixpoint log_of (event : Env -> Request -> option Event)
    (reqs : list (Env * Request)) : list Event :=
  match reqs with
  | [] => []
  | (env, req) :: reqs' =>
      match event env req with
      | Some ev => ev :: log_of event reqs'
      | None => log_of event reqs'
      end
  end.

(** The identifier drawn while a request is served:
    [crypto.randomBytes(16).toString('hex')]. *)
Definition generated_id (env : Env) : string :=
  Crypto.toString_hex (Crypto.randomBytes 16 (entropy env)).

(** Sample surroundings and requests for the worked examples. *)
Definition env_of (b : byte) (clock : string) : Env :=
  {| entropy := fun _ => b;
     now := clock;
     memoryUsage := VObj [];
     NODE_ENV := VUndefined |}.

Definition part_of (name : string) (data : list byte) : Multer.Part :=
  {| Multer.part_fieldname := "file";
     Multer.part_filename := name;
     Multer.part_mimetype := "text/plain";
     Multer.part_data := data |}.

(** A file part the multer middleware lets through: it has a file name, it
    is in field [file] and it is shorter than [fileSize] bytes. *)
Definition accepted (fileSize : Z) (p : Multer.Part) : bool :=
  truthy (VStr (Multer.part_filename p))
  && String.eqb (Multer.part_fieldname p) "file"
  && (Z.of_nat (List.length (Multer.part_data p)) <? fileSize).

(** The response the cross-origin middleware of [src/api/index.js] hands
    to the routes. *)
Definition api_opened : Response :=
  {| status := 200;
     headers := [("Access-Control-Allow-Origin", VStr "*");
                 ("Access-Control-Allow-Methods",
                  VStr "GET, POST, PUT, DELETE, OPTIONS");
                 ("Access-Control-Allow-Headers",
                  VStr "Content-Type, Authorization")];
     body := NoBody |}.

(** A value [res.setHeader] takes without throwing. *)
Definition header_value_ok (v : value) : bool :=
  match v with
  | VUndefined => false
  | _ => header_text_ok (interpolate v)
  end.

(** The [Content-Disposition] text the file handlers build for a record. *)
Definition disposition (fileInfo : obj) : string :=
  "inline; filename=" ++ dquote
  ++ interpolate (get_prop "originalName" fileInfo) ++ dquote.


(** The file name [U+0101 .txt], a letter outside Latin-1, in UTF-8. *)
Definition name_outside_latin1 : string :=
  String "196"%char (String "129"%char ".txt").

(** A file part in another field than [file]. *)
Definition misfiled_part : Multer.Part :=
  {| Multer.part_fieldname := "avatar";
     Multer.part_filename := "a.png";
     Multer.part_mimetype := "image/png";
     Multer.part_data := [x61] |}.

(** Three uploads, the third drawing the identifier of the first. *)
Definition colliding_uploads : list (Env * Request) :=
  [(env_of x01 "2024-01-01T00:00:00.000Z",
    upload_request [] (Some (part_of "first.txt" [x31])));
   (env_of x02 "2024-01-01T00:00:01.000Z",
    upload_request [] (Some (part_of "second.txt" [x32])));
   (env_of x01 "2024-01-01T00:00:02.000Z",
    upload_request [] (Some (part_of "third.txt" [x33])))].

(** Two uploads under different identifiers, then the first deleted and a
    third uploaded. *)
Definition distinct_uploads : list (Env * Request) :=
  [(env_of x01 "2024-01-01T00:00:00.000Z",
    upload_request [] (Some (part_of "first.txt" [x31])));
   (env_of x02 "2024-01-01T00:00:01.000Z",
    upload_request [] (Some (part_of "second.txt" [x32])));
   (env_of x03 "2024-01-01T00:00:02.000Z",
    request [] (DELETE_file "01010101010101010101010101010101"));
   (env_of x04 "2024-01-01T00:00:03.000Z",
    upload_request [] (Some (part_of "third.txt" [x33])))].

(** A file part sent without a file name. *)
Definition nameless_part : Multer.Part := part_of EmptyString [x61].

(** Three uploads from a cold start of which multer lets only the last
    through: a part without a file name, a part in another field, a file. *)
Definition refused_then_accepted_uploads : list (Env * Request) :=
  [(env_of x01 "2024-01-01T00:00:01.000Z",
    upload_request [] (Some nameless_part));
   (env_of x02 "2024-01-01T00:00:02.000Z",
    upload_request [] (Some misfiled_part));
   (env_of x03 "2024-01-01T00:00:03.000Z",
    upload_request [] (Some (part_of "kept.txt" [x33])))].

(** A part one byte over the 25MB limit of [src/unnamed/part_000]. *)
Definition oversized_part : Multer.Part :=
  part_of "big.bin" (repeat x00 (Z.to_nat (25 * 1024 * 1024 + 1))).

(** The same content sent without a file name. *)
Definition nameless_oversized_part : Multer.Part :=
  part_of EmptyString (repeat x00 (Z.to_nat (25 * 1024 * 1024 + 1))).

End Props.

(** ** Vocabulary of the further properties *)

Module Obs.
Import JS Express Props.

(** A member of the JSON envelope of a response. *)
Definition envelope_field (k : string) (res : Response) : value :=
  match body res with
  | Json (VObj o) => get_prop k o
  | _ => VUndefined
  end.

(** A member of the [data] object of a response. *)
Definition data_field (k : string) (res : Response) : value :=
  match data_of res with
  | VObj d => get_prop k d
  | _ => VUndefined
  end.

(** A header the application has set on a response. *)
Definition header_of (name : string) (res : Response) : option value :=
  Map_get name (headers res).

(** A stored record the file handler of [src/unnamed/part_000] can serve:
    its type and its [Content-Disposition] text are values [res.setHeader]
    takes. *)
Definition part000_servable (fileInfo : obj) : bool :=
  header_value_ok (get_prop "mimetype" fileInfo)
  && header_text_ok (disposition fileInfo).

(** The bytes a response sends raw. *)
Definition sent_bytes (res : Response) : option (list byte) :=
  match body res with
  | Sent (VBuffer b) => Some b
  | _ => None
  end.

(** The [id] of each item of a listing, in order. *)
Definition ids_of (items : list value) : list value :=
  map (fun item =>
         match item with
         | VObj o => get_prop "id" o
         | _ => VUndefined
         end) items.

(** A stored record is filed under its own identifier: [id] and [filename]
    are the key, and the key is 32 hexadecimal digits. *)
Definition filed_under_id (entry : string * obj) : bool :=
  match get_prop "id" (snd entry), get_prop "filename" (snd entry) with
  | VStr i, VStr f =>
      String.eqb i (fst entry) && String.eqb f (fst entry)
      && Nat.eqb (String.length (fst entry)) 32
      && Crypto.all_hex (fst entry)
  | _, _ => false
  end.

Definition all_filed_under_id (db : Map obj) : bool :=
  forallb filed_under_id db.

(** A stored record names its file and its type with non-empty strings. *)
Definition named_and_typed (fileInfo : obj) : bool :=
  match get_prop "originalName" fileInfo, get_prop "mimetype" fileInfo with
  | VStr n, VStr t => truthy (VStr n) && truthy (VStr t)
  | _, _ => false
  end.

(** A request that [src/api/index.js] answers by changing the store: an
    upload of a part multer lets through, or a delete of a stored
    identifier. *)
Definition api_mutation (req : Request) (st : Api.State) : bool :=
  match route req with
  | POST_upload (Some p) => accepted (20 * 1024 * 1024) p
  | DELETE_file fileId => Map_has fileId (Api.fileDatabase st)
  | _ => false
  end.

(** The same for [src/unnamed/part_000], which has no delete. *)
Definition part000_mutation (req : Request) : bool :=
  match route req with
  | POST_upload (Some p) => accepted (25 * 1024 * 1024) p
  | _ => false
  end.

(** A request with the given headers set, for the URL examples. *)
Definition forwarded_request : Request :=
  request [("host", "internal.local");
           ("x-forwarded-host", "cdn.example");
           ("x-forwarded-proto", "http")] GET_api.

End Obs.

(** ** Facts about [Map] *)

Section MapFacts.
Import JS.
Context {V : Type}.
Implicit Types (k : string) (v : V) (m : Map V).

Lemma Map_get_set_same k v m : Map_get k (Map_set k v m) = Some v.
Proof.
  induction m as [| [k' v'] m IH]; simpl.
  - now rewrite String.eqb_refl.
  - destruct (String.eqb k k') eqn:E; simpl; rewrite E; auto.
Qed.

Lemma Map_get_remove_same k m : Map_get k (Map_remove k m) = None.
Proof.
  unfold Map_remove.
  induction m as [| [k' v'] m IH]; simpl; auto.
  destruct (String.eqb k k') eqn:E; simpl; auto.
  now rewrite E.
Qed.

Lemma Map_has_remove_same k m : Map_has k (Map_remove k m) = false.
Proof. unfold Map_has. now rewrite Map_get_remove_same. Qed.

Lemma Map_remove_absent k m : Map_has k m = false -> Map_remove k m = m.
Proof.
  unfold Map_has, Map_remove.
  induction m as [| [k' v'] m IH]; simpl; auto.
  destruct (String.eqb k k') eqn:E; simpl; [discriminate |].
  intros H. now rewrite IH.
Qed.

(** A key that is new to the map goes last. *)
Lemma Map_set_absent k v m :
  Map_has k m = false -> Map_set k v m = (m ++ [(k, v)])%list.
Proof.
  unfold Map_has.
  induction m as [| [k' v'] m IH]; simpl; auto.
  destruct (String.eqb k k') eqn:E; [discriminate |].
  intros H. now rewrite IH.
Qed.

Lemma Map_keys_set k v m k' :
  In k' (Map_keys (Map_set k v m)) -> k' = k \/ In k' (Map_keys m).
Proof.
  unfold Map_keys.
  induction m as [| [k0 v0] m IH]; simpl.
  - intros [<- | []]. now left.
  - destruct (String.eqb k k0) eqn:E; simpl.
    + intros [<- | H]; right; auto.
    + intros [<- | H]; [right; now left |].
      destruct (IH H); auto.
Qed.

Lemma Map_keys_remove k m k' :
  In k' (Map_keys (Map_remove k m)) -> In k' (Map_keys m).
Proof.
  unfold Map_keys, Map_remove.
  induction m as [| [k0 v0] m IH]; simpl; auto.
  destruct (String.eqb k k0); simpl; intuition.
Qed.

(** [set] and [delete] keep the keys of a [Map] pairwise distinct. *)
Lemma Map_set_wf k v m : Map_wf m -> Map_wf (Map_set k v m).
Proof.
  unfold Map_wf.
  induction m as [| [k0 v0] m IH]; simpl; intros Hwf.
  - repeat constructor. intros [].
  - inversion Hwf as [| ? ? Hnotin Hrest]; subst.
    destruct (String.eqb k k0) eqn:E; simpl.
    + now constructor.
    + constructor; [| now apply IH].
      intros Hin. apply Map_keys_set in Hin as [-> | Hin]; auto.
      now rewrite String.eqb_refl in E.
Qed.

Lemma Map_remove_wf k m : Map_wf m -> Map_wf (Map_remove k m).
Proof.
  unfold Map_wf.
  induction m as [| [k0 v0] m IH]; simpl; intros Hwf; auto.
  inversion Hwf as [| ? ? Hnotin Hrest]; subst.
  unfold Map_remove. simpl.
  destruct (String.eqb k k0); simpl; [now apply IH |].
  constructor; [| now apply IH].
  intros Hin. apply Hnotin. now apply (Map_keys_remove k).
Qed.

Lemma forallb_Map_set (P : string * V -> bool) k v m :
  P (k, v) = true -> (forall k' v', P (k', v') = P (k, v')) ->
  forallb P m = true -> forallb P (Map_set k v m) = true.
Proof.
  intros Hv Hk.
  induction m as [| [k' v'] m IH]; simpl.
  - now rewrite Hv.
  - intros H. apply andb_true_iff in H as [H1 H2].
    destruct (String.eqb k k'); simpl.
    + rewrite H2, andb_true_r. now rewrite Hk.
    + now rewrite H1, IH.
Qed.

Lemma forallb_Map_remove (P : string * V -> bool) k m :
  forallb P m = true -> forallb P (Map_remove k m) = true.
Proof.
  unfold Map_remove.
  induction m as [| e m IH]; simpl; auto.
  intros H. apply andb_true_iff in H as [H1 H2].
  destruct (negb (String.eqb k (fst e))); simpl; auto.
  now rewrite H1, IH.
Qed.

End MapFacts.

(** ** More facts about [Map] *)

Section MapFrame.
Import JS.
Context {V : Type}.
Implicit Types (k : string) (v : V) (m : Map V).

Lemma Map_get_set_other k k' v m :
  k <> k' -> Map_get k (Map_set k' v m) = Map_get k m.
Proof.
  intros Hne.
  induction m as [| [k0 v0] m IH]; simpl.
  - destruct (String.eqb k k') eqn:E; auto.
    apply String.eqb_eq in E. contradiction.
  - destruct (String.eqb k' k0) eqn:E'; simpl.
    + apply String.eqb_eq in E'. subst k0.
      destruct (String.eqb k k') eqn:E; auto.
      apply String.eqb_eq in E. contradiction.
    + now rewrite IH.
Qed.

Lemma Map_get_remove_other k k' m :
  k <> k' -> Map_get k (Map_remove k' m) = Map_get k m.
Proof.
  intros Hne. unfold Map_remove.
  induction m as [| [k0 v0] m IH]; simpl; auto.
  destruct (String.eqb k' k0) eqn:E'; simpl.
  - apply String.eqb_eq in E'. subst k0.
    destruct (String.eqb k k') eqn:E; auto.
    apply String.eqb_eq in E. contradiction.
  - now rewrite IH.
Qed.

Lemma Map_keys_set_present k v m :
  Map_has k m = true -> Map_keys (Map_set k v m) = Map_keys m.
Proof.
  unfold Map_has, Map_keys.
  induction m as [| [k0 v0] m IH]; simpl; [discriminate |].
  destruct (String.eqb k k0) eqn:E; simpl; auto.
  intros H. now rewrite IH.
Qed.

Lemma Map_has_In k m : Map_has k m = true <-> In k (Map_keys m).
Proof.
  unfold Map_has, Map_keys.
  induction m as [| [k0 v0] m IH]; simpl.
  - split; [discriminate | tauto].
  - destruct (String.eqb k k0) eqn:E.
    + apply String.eqb_eq in E. subst. split; auto.
    + rewrite IH. split; auto. intros [H | H]; auto.
      subst. now rewrite String.eqb_refl in E.
Qed.

Lemma Map_has_set k k' v m :
  Map_has k m = true -> Map_has k (Map_set k' v m) = true.
Proof.
  unfold Map_has.
  induction m as [| [k0 v0] m IH]; simpl; [discriminate |].
  destruct (String.eqb k k0) eqn:E.
  - intros _. destruct (String.eqb k' k0); simpl; now rewrite E.
  - intros H. destruct (String.eqb k' k0); simpl; rewrite E; auto.
Qed.

Lemma Map_set_length k v m :
  List.length (Map_set k v m)
  = if Map_has k m then List.length m else S (List.length m).
Proof.
  unfold Map_has.
  induction m as [| [k0 v0] m IH]; simpl; auto.
  destruct (String.eqb k k0); simpl; auto.
  rewrite IH. destruct (Map_get k m); auto.
Qed.

(** In a well-formed map, deleting a stored key removes exactly one entry. *)
Lemma Map_remove_length k m :
  Map_wf m -> Map_has k m = true ->
  S (List.length (Map_remove k m)) = List.length m.
Proof.
  unfold Map_wf.
  induction m as [| [k0 v0] m IH]; simpl; intros Hwf Hhas.
  - discriminate.
  - inversion Hwf as [| ? ? Hnotin Hrest]; subst.
    unfold Map_has in Hhas. simpl in Hhas. unfold Map_remove. simpl.
    destruct (String.eqb k k0) eqn:E; simpl.
    + apply String.eqb_eq in E. subst k0.
      fold (Map_remove k m). rewrite Map_remove_absent; auto.
      destruct (Map_has k m) eqn:Hk; auto.
      apply Map_has_In in Hk. contradiction.
    + f_equal. apply IH; auto.
Qed.

Lemma forallb_Map_set_entry (P : string * V -> bool) k v m :
  P (k, v) = true -> forallb P m = true -> forallb P (Map_set k v m) = true.
Proof.
  intros Hv.
  induction m as [| [k0 v0] m IH]; simpl.
  - now rewrite Hv.
  - intros H. apply andb_true_iff in H as [H1 H2].
    destruct (String.eqb k k0) eqn:E; simpl.
    + apply String.eqb_eq in E. subst k0. now rewrite Hv, H2.
    + now rewrite H1, IH.
Qed.

End MapFrame.

(** ** Facts about objects *)

Section ObjFacts.
Import JS.

Lemma has_prop_rest_without k (o : obj) : has_prop k (rest_without k o) = false.
Proof.
  unfold rest_without.
  induction o as [| [k' v] o IH]; simpl; auto.
  destruct (String.eqb k k') eqn:E; simpl; auto.
  now rewrite E.
Qed.

End ObjFacts.

(** ** Facts about the hexadecimal encoding *)

Section HexFacts.
Import Crypto.

Lemma randomBytes_length n e : List.length (randomBytes n e) = n.
Proof. unfold randomBytes. now rewrite length_map, length_seq. Qed.

Lemma toString_hex_length b :
  String.length (toString_hex b) = (2 * List.length b)%nat.
Proof. induction b as [| x b IH]; simpl; auto. rewrite IH. lia. Qed.

Lemma hex_digits_of_byte x :
  is_hex_digit (hex_digit (N.div (Byte.to_N x) 16)) = true
  /\ is_hex_digit (hex_digit (N.modulo (Byte.to_N x) 16)) = true.
Proof. destruct x; split; vm_compute; reflexivity. Qed.

Lemma toString_hex_all_hex b : all_hex (toString_hex b) = true.
Proof.
  induction b as [| x b IH]; simpl; auto.
  destruct (hex_digits_of_byte x) as [H1 H2].
  now rewrite H1, H2, IH.
Qed.

Lemma parse_hex_byte x :
  hex_value (hex_digit (N.div (Byte.to_N x) 16)) = Some (N.div (Byte.to_N x) 16)
  /\ hex_value (hex_digit (N.modulo (Byte.to_N x) 16))
     = Some (N.modulo (Byte.to_N x) 16)
  /\ Byte.of_N (N.div (Byte.to_N x) 16 * 16 + N.modulo (Byte.to_N x) 16)
     = Some x.
Proof. destruct x; repeat split; vm_compute; reflexivity. Qed.

(** Decoding undoes encoding. *)
Lemma parse_hex_toString_hex b : parse_hex (toString_hex b) = Some b.
Proof.
  induction b as [| x b IH]; simpl; auto.
  destruct (parse_hex_byte x) as (H1 & H2 & H3).
  now rewrite H1, H2, IH, H3.
Qed.

Lemma toString_hex_inj b1 b2 : toString_hex b1 = toString_hex b2 -> b1 = b2.
Proof.
  intros H.
  assert (E : parse_hex (toString_hex b1) = parse_hex (toString_hex b2))
    by now rewrite H.
  rewrite !parse_hex_toString_hex in E. congruence.
Qed.

End HexFacts.

(** ** The upload pipeline, case by case *)

Section UploadFacts.
Import JS Express Props.

Lemma Api_cors_fresh : Api.cors fresh = Done api_opened.
Proof. reflexivity. Qed.

Lemma Api_opened_runs st k : Api.opened st k = k api_opened.
Proof. unfold Api.opened. now rewrite Api_cors_fresh. Qed.

(** What multer does with a part it lets through, and that it hands
    nothing on for any other part. *)
Lemma single_accepted fileSize p :
  accepted fileSize p = true ->
  Multer.single fileSize (Some p) = inr (Some (Multer.memoryStorage p)).
Proof.
  unfold accepted, Multer.single. intros H.
  apply andb_true_iff in H as [H Hlen].
  apply andb_true_iff in H as [Hname Hfield].
  rewrite Hname, Hfield. simpl.
  apply Z.ltb_lt in Hlen.
  destruct (Z.leb_spec fileSize (Z.of_nat (List.length (Multer.part_data p))));
    [lia | reflexivity].
Qed.

Lemma single_not_accepted fileSize p :
  accepted fileSize p = false ->
  Multer.single fileSize (Some p) = inr None
  \/ exists code, Multer.single fileSize (Some p)
                  = inl (Multer.MulterError code).
Proof.
  unfold accepted, Multer.single. intros H.
  destruct (truthy (VStr (Multer.part_filename p))); simpl in *; auto.
  destruct (String.eqb (Multer.part_fieldname p) "file"); simpl in *;
    [| right; eexists; reflexivity].
  apply Z.ltb_ge in H.
  destruct (Z.leb_spec fileSize (Z.of_nat (List.length (Multer.part_data p))));
    [right; eexists; reflexivity | lia].
Qed.

Lemma accepted_length fileSize p :
  accepted fileSize p = true ->
  Z.of_nat (List.length (Multer.part_data p)) < fileSize.
Proof.
  unfold accepted. intros H. apply andb_true_iff in H as [_ H].
  now apply Z.ltb_lt.
Qed.

(** A part of 20MB or more in field [file] never reaches the route handler
    of [src/api/index.js]: multer raises and the error middleware
    answers. *)
Lemma Api_upload_too_large env req p st :
  route req = POST_upload (Some p) ->
  truthy (VStr (Multer.part_filename p)) = true ->
  Multer.part_fieldname p = "file" ->
  20 * 1024 * 1024 <= Z.of_nat (List.length (Multer.part_data p)) ->
  Api.app env req st
  = (st, Api.error_middleware (Multer.MulterError "LIMIT_FILE_SIZE")
           api_opened).
Proof.
  intros Hr Hname Hfield Hbig. unfold Api.app. rewrite Hr, Api_opened_runs.
  unfold Api.upload, Multer.single. rewrite Hname, Hfield.
  destruct (Z.leb_spec (20 * 1024 * 1024)
              (Z.of_nat (List.length (Multer.part_data p)))); [reflexivity | lia].
Qed.

(** A part multer lets through is stored under the fresh identifier. *)
Lemma Api_upload_accepted env req p st :
  route req = POST_upload (Some p) ->
  accepted (20 * 1024 * 1024) p = true ->
  let fileInfo := snd (Api.make_fileInfo env req (Multer.memoryStorage p)) in
  fst (Api.app env req st)
  = {| Api.fileDatabase :=
        Map_set (generated_id env) fileInfo (Api.fileDatabase st) |}
  /\ status (snd (Api.app env req st)) = 200
  /\ data_of (snd (Api.app env req st))
     = VObj [("id", VStr (generated_id env));
             ("originalName", get_prop "originalName" fileInfo);
             ("mimetype", get_prop "mimetype" fileInfo);
             ("size", VNum (Z.of_nat (List.length (Multer.part_data p))));
             ("url", get_prop "url" fileInfo);
             ("uploadDate", VStr (now env))].
Proof.
  intros Hr Hacc. pose proof (accepted_length _ _ Hacc) as Hlen.
  unfold Api.app. rewrite Hr, Api_opened_runs.
  unfold Api.upload. rewrite (single_accepted _ _ Hacc).
  unfold Api.post_upload.
  change (Multer.size (Multer.memoryStorage p))
    with (Z.of_nat (List.length (Multer.part_data p))).
  destruct (Z.ltb_spec (20 * 1024 * 1024)
              (Z.of_nat (List.length (Multer.part_data p)))); [lia |].
  repeat split.
Qed.

(** Any other upload request leaves the store as it was and announces no
    identifier. *)
Lemma Api_upload_refused env req body st :
  route req = POST_upload body ->
  (forall p, body = Some p -> accepted (20 * 1024 * 1024) p = false) ->
  fst (Api.app env req st) = st
  /\ data_of (snd (Api.app env req st)) = VUndefined.
Proof.
  intros Hr Hrej. unfold Api.app. rewrite Hr, Api_opened_runs.
  unfold Api.upload. destruct body as [p |]; [| split; reflexivity].
  destruct (single_not_accepted _ _ (Hrej p eq_refl)) as [-> | [code ->]].
  - split; reflexivity.
  - unfold Api.error_middleware.
    destruct (String.eqb code "LIMIT_FILE_SIZE"); split; reflexivity.
Qed.

Lemma Part000_upload_too_large env req p st :
  route req = POST_upload (Some p) ->
  truthy (VStr (Multer.part_filename p)) = true ->
  Multer.part_fieldname p = "file" ->
  25 * 1024 * 1024 <= Z.of_nat (List.length (Multer.part_data p)) ->
  Part000.app env req st = (st, finalhandler 500 fresh).
Proof.
  intros Hr Hname Hfield Hbig. unfold Part000.app. rewrite Hr.
  unfold Part000.upload, Multer.single. rewrite Hname, Hfield.
  destruct (Z.leb_spec (25 * 1024 * 1024)
              (Z.of_nat (List.length (Multer.part_data p)))); [reflexivity | lia].
Qed.

Lemma Part000_upload_accepted env req p st :
  route req = POST_upload (Some p) ->
  accepted (25 * 1024 * 1024) p = true ->
  let fileInfo :=
    snd (Part000.make_fileInfo env req (Multer.memoryStorage p)) in
  fst (Part000.app env req st)
  = {| Part000.fileDatabase :=
        Map_set (generated_id env) fileInfo (Part000.fileDatabase st) |}
  /\ status (snd (Part000.app env req st)) = 200
  /\ data_of (snd (Part000.app env req st)) = VObj fileInfo.
Proof.
  intros Hr Hacc. unfold Part000.app. rewrite Hr.
  unfold Part000.upload. rewrite (single_accepted _ _ Hacc).
  repeat split.
Qed.

Lemma Part000_upload_refused env req body st :
  route req = POST_upload body ->
  (forall p, body = Some p -> accepted (25 * 1024 * 1024) p = false) ->
  fst (Part000.app env req st) = st
  /\ data_of (snd (Part000.app env req st)) = VUndefined.
Proof.
  intros Hr Hrej. unfold Part000.app. rewrite Hr.
  unfold Part000.upload. destruct body as [p |]; [| split; reflexivity].
  destruct (single_not_accepted _ _ (Hrej p eq_refl)) as [-> | [code ->]];
    split; reflexivity.
Qed.

Lemma accepted_or_not fileSize (body : option Multer.Part) :
  (exists p, body = Some p /\ accepted fileSize p = true)
  \/ (forall p, body = Some p -> accepted fileSize p = false).
Proof.
  destruct body as [p |]; [| right; discriminate].
  destruct (accepted fileSize p) eqn:E.
  - left. exists p. auto.
  - right. intros q Hq. now injection Hq as <-.
Qed.

(** An upload request that announces an identifier was accepted, and the
    identifier is the one drawn for it. *)
Lemma Api_uploaded_id_inv env req body st fileId :
  route req = POST_upload body ->
  uploaded_id (snd (Api.app env req st)) = Some fileId ->
  fileId = generated_id env
  /\ exists p, body = Some p /\ accepted (20 * 1024 * 1024) p = true.
Proof.
  intros Hr H.
  destruct (accepted_or_not (20 * 1024 * 1024) body)
    as [(p & -> & Hacc) | Hrej].
  - pose proof (Api_upload_accepted env req p st Hr Hacc) as (_ & _ & Hd).
    unfold uploaded_id in H. rewrite Hd in H. simpl in H.
    split; [congruence | exists p; auto].
  - destruct (Api_upload_refused env req body st Hr Hrej) as [_ Hd].
    unfold uploaded_id in H. rewrite Hd in H. discriminate.
Qed.

Lemma Part000_uploaded_id_inv env req body st fileId :
  route req = POST_upload body ->
  uploaded_id (snd (Part000.app env req st)) = Some fileId ->
  fileId = generated_id env
  /\ exists p, body = Some p /\ accepted (25 * 1024 * 1024) p = true.
Proof.
  intros Hr H.
  destruct (accepted_or_not (25 * 1024 * 1024) body)
    as [(p & -> & Hacc) | Hrej].
  - pose proof (Part000_upload_accepted env req p st Hr Hacc) as (_ & _ & Hd).
    unfold uploaded_id in H. rewrite Hd in H.
    change (get_prop "id"
              (snd (Part000.make_fileInfo env req (Multer.memoryStorage p))))
      with (VStr (generated_id env)) in H.
    split; [congruence | exists p; auto].
  - destruct (Part000_upload_refused env req body st Hr Hrej) as [_ Hd].
    unfold uploaded_id in H. rewrite Hd in H. discriminate.
Qed.

End UploadFacts.

(** ** Header values and the file handler *)

Section FileHandler.
Import JS Express Props.




Lemma setHeader_ok name v res :
  header_value_ok v = true ->
  setHeader name v res
  = Done {| status := status res;
            headers := Map_set name v (headers res);
            body := body res |}.
Proof.
  unfold header_value_ok, setHeader.
  destruct v; try discriminate; intros ->; reflexivity.
Qed.

Lemma setHeader_throws name v res :
  header_value_ok v = false ->
  exists message, setHeader name v res = Thrown res message.
Proof.
  unfold header_value_ok, setHeader.
  destruct v; intros H; try rewrite H; eexists; reflexivity.
Qed.


(** The file handler of [src/api/index.js] on a stored record: it serves
    the record's buffer when the record's type, size and
    [Content-Disposition] text are header values, and answers 500
    [RETRIEVAL_FAILED] when one of them is not. *)
Lemma Api_get_file_stored fileId st res fileInfo :
  Map_get fileId (Api.fileDatabase st) = Some fileInfo ->
  let ok := header_value_ok (get_prop "mimetype" fileInfo)
            && header_value_ok (get_prop "size" fileInfo)
            && header_text_ok (disposition fileInfo) in
  let out := Api.get_file fileId st res in
  (ok = true ->
     status out = status res
     /\ body out = Sent (get_prop "buffer" fileInfo)
     /\ (forall name,
           In name ["Access-Control-Allow-Origin";
                    "Access-Control-Allow-Methods";
                    "Access-Control-Allow-Headers"] ->
           Map_get name (headers out) = Map_get name (headers res)))
  /\ (ok = false ->
        status out = 500
        /\ body out
           = Json (VObj [("error", VStr "RETRIEVAL_FAILED");
                         ("message", VStr "Gagal mengambil file")])
        /\ (forall name,
              In name ["Access-Control-Allow-Origin";
                       "Access-Control-Allow-Methods";
                       "Access-Control-Allow-Headers"] ->
              Map_get name (headers out) = Map_get name (headers res))).
Proof.
  intros Hget ok out. subst ok out. unfold Api.get_file. rewrite Hget.
  fold (disposition fileInfo).
  destruct (header_value_ok (get_prop "mimetype" fileInfo)) eqn:Ht.
  2:{ split; [discriminate | intros _].
      destruct (setHeader_throws "Content-Type" _ res Ht) as [m ->].
      simpl. auto. }
  rewrite (setHeader_ok _ _ _ Ht). cbv [and_then].
  destruct (header_value_ok (get_prop "size" fileInfo)) eqn:Hs.
  2:{ split; [discriminate | intros _].
      match goal with
      | |- context [setHeader "Content-Length" ?v ?r] =>
          destruct (setHeader_throws "Content-Length" v r Hs) as [m ->]
      end.
      simpl. repeat split.
      intros name Hin. simpl in Hin.
      destruct Hin as [<- | [<- | [<- | []]]];
        now rewrite Map_get_set_other by discriminate. }
  rewrite (setHeader_ok _ _ _ Hs).
  destruct (header_text_ok (disposition fileInfo)) eqn:Hd.
  2:{ split; [discriminate | intros _].
      assert (Hv : header_value_ok (VStr (disposition fileInfo)) = false)
        by exact Hd.
      match goal with
      | |- context [setHeader "Content-Disposition" ?v ?r] =>
          destruct (setHeader_throws "Content-Disposition" v r Hv) as [m ->]
      end.
      simpl. repeat split.
      intros name Hin. simpl in Hin.
      destruct Hin as [<- | [<- | [<- | []]]];
        now rewrite !Map_get_set_other by discriminate. }
  assert (Hv : header_value_ok (VStr (disposition fileInfo)) = true)
    by exact Hd.
  rewrite (setHeader_ok _ _ _ Hv).
  rewrite (setHeader_ok "Cache-Control") by reflexivity.
  rewrite (setHeader_ok "Access-Control-Expose-Headers") by reflexivity.
  split; [intros _ | discriminate].
  simpl. repeat split.
  intros name Hin. simpl in Hin.
  destruct Hin as [<- | [<- | [<- | []]]];
    now rewrite !Map_get_set_other by discriminate.
Qed.

(** The same for [src/unnamed/part_000], which sets
    [Access-Control-Allow-Origin] last. *)
Lemma Part000_get_file_stored fileId st res fileInfo :
  Map_get fileId (Part000.fileDatabase st) = Some fileInfo ->
  let ok := header_value_ok (get_prop "mimetype" fileInfo)
            && header_text_ok (disposition fileInfo) in
  let out := Part000.get_file fileId st res in
  (ok = true ->
     status out = status res
     /\ body out = Sent (get_prop "buffer" fileInfo)
     /\ Map_get "Access-Control-Allow-Origin" (headers out)
        = Some (VStr "*"))
  /\ (ok = false ->
        status out = 500
        /\ error_code out = VStr "File retrieval failed"
        /\ Map_get "Access-Control-Allow-Origin" (headers out)
           = Map_get "Access-Control-Allow-Origin" (headers res)).
Proof.
  intros Hget ok out. subst ok out. unfold Part000.get_file. rewrite Hget.
  fold (disposition fileInfo).
  destruct (header_value_ok (get_prop "mimetype" fileInfo)) eqn:Ht.
  2:{ split; [discriminate | intros _].
      destruct (setHeader_throws "Content-Type" _ res Ht) as [m ->].
      simpl. auto. }
  rewrite (setHeader_ok _ _ _ Ht). cbv [and_then].
  destruct (header_text_ok (disposition fileInfo)) eqn:Hd.
  2:{ split; [discriminate | intros _].
      assert (Hv : header_value_ok (VStr (disposition fileInfo)) = false)
        by exact Hd.
      match goal with
      | |- context [setHeader "Content-Disposition" ?v ?r] =>
          destruct (setHeader_throws "Content-Disposition" v r Hv) as [m ->]
      end.
      simpl. repeat split.
      now rewrite Map_get_set_other by discriminate. }
  assert (Hv : header_value_ok (VStr (disposition fileInfo)) = true)
    by exact Hd.
  rewrite (setHeader_ok _ _ _ Hv).
  rewrite (setHeader_ok "Cache-Control") by reflexivity.
  rewrite (setHeader_ok "Access-Control-Allow-Origin") by reflexivity.
  split; [intros _ | discriminate].
  simpl. repeat split. apply Map_get_set_same.
Qed.

End FileHandler.

(** ** Round trip of a payload *)

Section RoundTrip.
Import JS Express Props.

Lemma memoryStorage_mimetype_truthy p :
  truthy (VStr (Multer.mimetype (Multer.memoryStorage p))) = true.
Proof.
  unfold Multer.memoryStorage. simpl. now destruct (Multer.part_mimetype p).
Qed.

Lemma accepted_name_truthy fileSize p :
  accepted fileSize p = true -> truthy (VStr (Multer.part_filename p)) = true.
Proof.
  unfold accepted. intros H.
  apply andb_true_iff in H as [H _]. now apply andb_true_iff in H as [H _].
Qed.

(** What the record of an accepted part holds, in both variants. *)
Lemma Api_record_of_accepted env req fileSize p :
  accepted fileSize p = true ->
  let fileInfo := snd (Api.make_fileInfo env req (Multer.memoryStorage p)) in
  get_prop "originalName" fileInfo = VStr (Multer.part_filename p)
  /\ get_prop "mimetype" fileInfo
     = VStr (Multer.mimetype (Multer.memoryStorage p))
  /\ get_prop "size" fileInfo
     = VNum (Z.of_nat (List.length (Multer.part_data p)))
  /\ get_prop "buffer" fileInfo = VBuffer (Multer.part_data p).
Proof.
  intros Hacc fileInfo. subst fileInfo.
  pose proof (accepted_name_truthy _ _ Hacc) as Hname.
  pose proof (memoryStorage_mimetype_truthy p) as Htype.
  unfold Api.make_fileInfo.
  cbv [snd get_prop String.eqb Ascii.eqb Bool.eqb].
  unfold js_or.
  change (Multer.originalname (Multer.memoryStorage p))
    with (Multer.part_filename p).
  rewrite Hname, Htype. repeat split.
Qed.

Lemma Part000_record_of_accepted env req p :
  let fileInfo :=
    snd (Part000.make_fileInfo env req (Multer.memoryStorage p)) in
  get_prop "originalName" fileInfo = VStr (Multer.part_filename p)
  /\ get_prop "mimetype" fileInfo
     = VStr (Multer.mimetype (Multer.memoryStorage p))
  /\ get_prop "size" fileInfo
     = VNum (Z.of_nat (List.length (Multer.part_data p)))
  /\ get_prop "buffer" fileInfo = VBuffer (Multer.part_data p).
Proof. repeat split. Qed.

(** C1. A file whose name holds a character outside Latin-1 is accepted
    and stored, and is then not served: on a three-byte file named
    [U+0101 .txt] the upload answers 200 with an identifier, and
    [GET /file/:id] with that identifier answers 500 from the [catch]
    branch of the file handler, not the bytes. Both variants. *)
Theorem C1_file_named_outside_latin1_is_not_served :
  let payload := [x61; x62; x63] in
  let part := part_of name_outside_latin1 payload in
  (forall env hdrs st env' hdrs',
      let up := Api.app env (upload_request hdrs (Some part)) st in
      let res :=
        snd (Api.app env' (request hdrs' (GET_file (generated_id env)))
               (fst up)) in
      uploaded_id (snd up) = Some (generated_id env)
      /\ status (snd up) = 200
      /\ status res = 500
      /\ error_code res = VStr "RETRIEVAL_FAILED"
      /\ body res <> Sent (VBuffer payload))
  /\ (forall env hdrs st env' hdrs',
      let up := Part000.app env (upload_request hdrs (Some part)) st in
      let res :=
        snd (Part000.app env' (request hdrs' (GET_file (generated_id env)))
               (fst up)) in
      uploaded_id (snd up) = Some (generated_id env)
      /\ status (snd up) = 200
      /\ status res = 500
      /\ error_code res = VStr "File retrieval failed"
      /\ body res <> Sent (VBuffer payload)).
Proof.
  intros payload part.
  split; intros env hdrs st env' hdrs' up res; subst up res.
  - destruct (Api_upload_accepted env (upload_request hdrs (Some part))
                part st eq_refl eq_refl) as (Hst & Hstatus & Hd).
    split; [unfold uploaded_id; now rewrite Hd |].
    split; [exact Hstatus |].
    rewrite Hst. unfold Api.app, request, route.
    rewrite Api_opened_runs. cbn [snd].
    match goal with
    | |- context [Api.get_file ?k ?s ?r] =>
        destruct (Api_get_file_stored k s r _ (Map_get_set_same _ _ _))
          as [_ Hfail]
    end.
    destruct (Hfail eq_refl) as (H1 & H2 & _).
    rewrite H1. unfold error_code. rewrite H2.
    repeat split. discriminate.
  - destruct (Part000_upload_accepted env (upload_request hdrs (Some part))
                part st eq_refl eq_refl) as (Hst & Hstatus & Hd).
    split; [unfold uploaded_id; rewrite Hd; reflexivity |].
    split; [exact Hstatus |].
    rewrite Hst. unfold Part000.app, request, route. cbn [snd].
    match goal with
    | |- context [Part000.get_file ?k ?s ?r] =>
        destruct (Part000_get_file_stored k s r _ (Map_get_set_same _ _ _))
          as [_ Hfail]
    end.
    destruct (Hfail eq_refl) as (H1 & H2 & _).
    rewrite H1, H2. repeat split.
    intros H. unfold error_code in H2. rewrite H in H2. discriminate.
Qed.



(** The worked example of the specification on [src/api/index.js]: a
    ten-byte [a.txt] of type [text/plain] is answered with a 32-character
    identifier and size 10; the info answer names [a.txt] with size 10; the
    file answer is the ten bytes, served as [text/plain]. *)
Example ten_byte_upload :
  let payload := [x68; x65; x6c; x6c; x6f; x20; x63; x64; x6e; x0a] in
  let env := env_of xc3 "2024-01-01T00:00:00.000Z" in
  let up := Api.app env (upload_request [] (Some (part_of "a.txt" payload)))
              Api.init in
  let fileId := "c3c3c3c3c3c3c3c3c3c3c3c3c3c3c3c3" in
  let info := snd (Api.app env (request [] (GET_info fileId)) (fst up)) in
  let file := snd (Api.app env (request [] (GET_file fileId)) (fst up)) in
  uploaded_id (snd up) = Some fileId
  /\ String.length fileId = 32%nat
  /\ (exists d, data_of (snd up) = VObj d /\ get_prop "size" d = VNum 10)
  /\ (exists d, data_of info = VObj d
       /\ get_prop "originalName" d = VStr "a.txt"
       /\ get_prop "size" d = VNum 10)
  /\ body file = Sent (VBuffer payload)
  /\ Map_get "Content-Type" (headers file) = Some (VStr "text/plain").
Proof.
  repeat split; try (eexists; repeat split; reflexivity).
Qed.

End RoundTrip.

(** ** Payload never leaves through metadata *)

Section NoPayload.
Import JS Express Props.

Lemma forallb_payload_free_summaries (db : Map obj) :
  forallb payload_free (map summary (Map_values db)) = true.
Proof.
  unfold Map_values.
  induction db as [| [k o] db IH]; simpl; auto.
  now rewrite has_prop_rest_without, IH.
Qed.

(** C2. Whatever the store holds, the answers of [GET /info/:id] and of
    [GET /files] carry no [buffer] property: for a stored identifier the
    info answer is the record with [buffer] left out, and the listing is the
    stored records, each with [buffer] left out. Both variants. *)
Theorem C2_info_and_listing_omit_payload :
  (forall env hdrs st fileId,
      response_payload_free
        (snd (Api.app env (request hdrs (GET_info fileId)) st)) = true)
  /\ (forall env hdrs st fileId fileInfo,
      Map_get fileId (Api.fileDatabase st) = Some fileInfo ->
      let res := snd (Api.app env (request hdrs (GET_info fileId)) st) in
      status res = 200
      /\ data_of res = summary fileInfo
      /\ payload_free (data_of res) = true)
  /\ (forall env hdrs st,
      let res := snd (Api.app env (request hdrs GET_files) st) in
      response_payload_free res = true
      /\ listing res = Some (map summary (Map_values (Api.fileDatabase st))))
  /\ (forall env hdrs st fileId,
      response_payload_free
        (snd (Part000.app env (request hdrs (GET_info fileId)) st)) = true)
  /\ (forall env hdrs st fileId fileInfo,
      Map_get fileId (Part000.fileDatabase st) = Some fileInfo ->
      let res := snd (Part000.app env (request hdrs (GET_info fileId)) st) in
      status res = 200
      /\ data_of res = summary fileInfo
      /\ payload_free (data_of res) = true)
  /\ (forall env hdrs st,
      let res := snd (Part000.app env (request hdrs GET_files) st) in
      response_payload_free res = true
      /\ listing res
         = Some (map summary (Map_values (Part000.fileDatabase st)))).
Proof.
  repeat apply conj.
  - intros env hdrs st fileId. unfold Api.app, request, route; rewrite Api_opened_runs; unfold Api.get_info.
    destruct (Map_get fileId (Api.fileDatabase st)) as [o |]; [| reflexivity].
    unfold response_payload_free. simpl.
    now rewrite has_prop_rest_without.
  - intros env hdrs st fileId o Ho. unfold Api.app, request, route; rewrite Api_opened_runs; unfold Api.get_info.
    rewrite Ho. unfold payload_free, data_of, summary. simpl.
    now rewrite has_prop_rest_without.
  - intros env hdrs st. unfold Api.app, request, route; rewrite Api_opened_runs; unfold Api.get_files.
    unfold response_payload_free, listing, data_of. simpl.
    split; [| reflexivity].
    apply (forallb_payload_free_summaries (Api.fileDatabase st)).
  - intros env hdrs st fileId.
    unfold Part000.app, request, route, Part000.get_info.
    destruct (Map_get fileId (Part000.fileDatabase st)) as [o |];
      [| reflexivity].
    unfold response_payload_free. simpl.
    now rewrite has_prop_rest_without.
  - intros env hdrs st fileId o Ho.
    unfold Part000.app, request, route, Part000.get_info.
    rewrite Ho. unfold payload_free, data_of, summary. simpl.
    now rewrite has_prop_rest_without.
  - intros env hdrs st. unfold Part000.app, request, route, Part000.get_files.
    unfold response_payload_free, listing, data_of. simpl.
    split; [| reflexivity].
    apply (forallb_payload_free_summaries (Part000.fileDatabase st)).
Qed.

(** The info answer for a record stored by an upload, in both variants. *)
Lemma C2_info_witness :
  let up := upload_request [] (Some (part_of "a.txt" [x61; x62; x63])) in
  let env := env_of x07 "2024-01-01T00:00:00.000Z" in
  let info := request [] (GET_info "07070707070707070707070707070707") in
  payload_free
    (data_of (snd (Api.app env info (fst (Api.app env up Api.init))))) = true
  /\ payload_free
       (data_of
          (snd (Part000.app env info (fst (Part000.app env up Part000.init)))))
     = true.
Proof.
  intros up env info. split.
  - eapply (proj1 (proj2 C2_info_and_listing_omit_payload)
              env [] (fst (Api.app env up Api.init))
              "07070707070707070707070707070707").
    reflexivity.
  - eapply (proj1 (proj2 (proj2 (proj2 (proj2
              C2_info_and_listing_omit_payload))))
              env [] (fst (Part000.app env up Part000.init))
              "07070707070707070707070707070707").
    reflexivity.
Defined.

(** In [src/api/index.js] the answer to an upload, accepted or refused,
    carries no payload field. *)
Lemma Api_upload_response_payload_free env req body st :
  route req = POST_upload body ->
  response_payload_free (snd (Api.app env req st)) = true.
Proof.
  intros Hr. unfold Api.app. rewrite Hr, Api_opened_runs.
  unfold Api.upload.
  destruct (accepted_or_not (20 * 1024 * 1024) body)
    as [(p & -> & Hacc) | Hrej].
  - rewrite (single_accepted _ _ Hacc). unfold Api.post_upload.
    destruct (_ <? Multer.size (Multer.memoryStorage p)); reflexivity.
  - destruct body as [p |]; [| reflexivity].
    destruct (single_not_accepted _ _ (Hrej p eq_refl)) as [-> | [code ->]];
      [reflexivity |].
    unfold Api.error_middleware.
    destruct (String.eqb code "LIMIT_FILE_SIZE"); reflexivity.
Qed.

(** C3. In [src/unnamed/part_000] the 200 answer to an upload is the whole
    record: on a three-byte file its [data] object has the own property
    [buffer], holding the uploaded bytes. *)
Theorem C3_part000_upload_response_carries_buffer :
  forall env hdrs st,
    let res :=
      snd (Part000.app env
             (upload_request hdrs (Some (part_of "a.txt" [x61; x62; x63])))
             st) in
    status res = 200
    /\ response_payload_free res = false
    /\ exists d, data_of res = VObj d
         /\ get_prop "buffer" d = VBuffer [x61; x62; x63].
Proof.
  intros env hdrs st res. subst res.
  repeat split.
  eexists. split; reflexivity.
Qed.

End NoPayload.

(** ** Refused uploads *)

Section Refusals.
Import JS Express Props.

(** In [src/api/index.js] an upload of 20MB or more is answered 400 with
    code [FILE_TOO_LARGE] and leaves the store as it was, on both paths:
    when multer raises [LIMIT_FILE_SIZE] and the error middleware answers,
    and when the route handler itself meets a [req.file] over the limit. *)
Lemma Api_oversized_upload_rejected :
  (forall env req p st,
      route req = POST_upload (Some p) ->
      truthy (VStr (Multer.part_filename p)) = true ->
      Multer.part_fieldname p = "file" ->
      20 * 1024 * 1024 <= Z.of_nat (List.length (Multer.part_data p)) ->
      fst (Api.app env req st) = st
      /\ status (snd (Api.app env req st)) = 400
      /\ error_code (snd (Api.app env req st)) = VStr "FILE_TOO_LARGE")
  /\ (forall env req f st res,
      20 * 1024 * 1024 < Multer.size f ->
      fst (Api.post_upload env req (Some f) st res) = st
      /\ status (snd (Api.post_upload env req (Some f) st res)) = 400
      /\ error_code (snd (Api.post_upload env req (Some f) st res))
         = VStr "FILE_TOO_LARGE")
  /\ (forall res,
      status (Api.error_middleware (Multer.MulterError "LIMIT_FILE_SIZE") res)
      = 400
      /\ error_code
           (Api.error_middleware (Multer.MulterError "LIMIT_FILE_SIZE") res)
         = VStr "FILE_TOO_LARGE").
Proof.
  repeat apply conj.
  - intros env req p st Hr Hname Hfield Hbig.
    rewrite (Api_upload_too_large env req p st Hr Hname Hfield Hbig).
    repeat split.
  - intros env req f st res Hbig. unfold Api.post_upload.
    destruct (Z.ltb_spec (20 * 1024 * 1024) (Multer.size f)); [| lia].
    repeat split.
  - intros res. split; reflexivity.
Qed.

Lemma oversized_part_length :
  25 * 1024 * 1024 < Z.of_nat (List.length (Multer.part_data oversized_part)).
Proof.
  change (Multer.part_data oversized_part)
    with (repeat x00 (Z.to_nat (25 * 1024 * 1024 + 1))).
  rewrite repeat_length, Z2Nat.id; lia.
Qed.

(** C4. [src/unnamed/part_000] registers no error-handling middleware: an
    upload one byte over its 25MB limit leaves the store as it was, but is
    answered by Express's default handler with status 500 and no
    [FILE_TOO_LARGE] envelope. *)
Theorem C4_part000_oversized_upload_answers_500 :
  forall env hdrs st,
    let out :=
      Part000.app env (upload_request hdrs (Some oversized_part)) st in
    fst out = st
    /\ status (snd out) = 500
    /\ body (snd out) = DefaultPage
    /\ error_code (snd out) <> VStr "FILE_TOO_LARGE".
Proof.
  intros env hdrs st out. subst out.
  rewrite (Part000_upload_too_large env
             (upload_request hdrs (Some oversized_part)) oversized_part st
             eq_refl eq_refl eq_refl (Z.lt_le_incl _ _ oversized_part_length)).
  repeat split. discriminate.
Qed.




End Refusals.

(** ** Unknown identifiers and deletion *)

Section NotFound.
Import JS Express Props.

(** C5. For an identifier that is not in the store, [GET /file/:id],
    [GET /info/:id] and [DELETE /file/:id] of [src/api/index.js] answer 404
    with code [FILE_NOT_FOUND]; [GET /file/:id] and [GET /info/:id] of
    [src/unnamed/part_000] answer 404 with its not-found error. None of
    these answers is a 5xx. *)
Theorem C5_absent_id_is_not_found :
  (forall env hdrs st fileId r,
      Map_get fileId (Api.fileDatabase st) = None ->
      In r [GET_file fileId; GET_info fileId; DELETE_file fileId] ->
      let res := snd (Api.app env (request hdrs r) st) in
      status res = 404
      /\ error_code res = VStr "FILE_NOT_FOUND"
      /\ is_server_error res = false)
  /\ (forall env hdrs st fileId r,
      Map_get fileId (Part000.fileDatabase st) = None ->
      In r [GET_file fileId; GET_info fileId] ->
      let res := snd (Part000.app env (request hdrs r) st) in
      status res = 404
      /\ error_code res = VStr "File not found"
      /\ is_server_error res = false).
Proof.
  split; intros env hdrs st fileId r Habs Hin res; subst res.
  - simpl in Hin. destruct Hin as [<- | [<- | [<- | []]]].
    + unfold Api.app, request, route; rewrite Api_opened_runs; unfold Api.get_file. rewrite Habs.
      repeat split.
    + unfold Api.app, request, route; rewrite Api_opened_runs; unfold Api.get_info. rewrite Habs.
      repeat split.
    + unfold Api.app, request, route; rewrite Api_opened_runs; unfold Api.delete_file, Map_delete, Map_has.
      rewrite Habs. repeat split.
  - simpl in Hin. destruct Hin as [<- | [<- | []]].
    + unfold Part000.app, request, route, Part000.get_file. rewrite Habs.
      repeat split.
    + unfold Part000.app, request, route, Part000.get_info. rewrite Habs.
      repeat split.
Qed.

(** The three routes on an empty store. *)
Lemma C5_not_found_witness :
  let env := env_of x01 "2024-01-01T00:00:00.000Z" in
  status (snd (Api.app env (request [] (DELETE_file "nope")) Api.init)) = 404
  /\ status (snd (Part000.app env (request [] (GET_info "nope")) Part000.init))
     = 404.
Proof.
  intros env. split.
  - apply (proj1 C5_absent_id_is_not_found env [] Api.init "nope"
             (DELETE_file "nope")); [reflexivity |].
    simpl. right. right. left. reflexivity.
  - apply (proj2 C5_absent_id_is_not_found env [] Part000.init "nope"
             (GET_info "nope")); [reflexivity |].
    simpl. right. left. reflexivity.
Defined.

(** C6. For an identifier that is in the store, two [DELETE /file/:id]
    requests in a row: the first answers 200 with the success envelope and
    takes the record out, the second answers 404 with code
    [FILE_NOT_FOUND]. *)
Theorem C6_delete_twice :
  forall env1 env2 hdrs1 hdrs2 st fileId,
    Map_has fileId (Api.fileDatabase st) = true ->
    let first := Api.app env1 (request hdrs1 (DELETE_file fileId)) st in
    let second :=
      Api.app env2 (request hdrs2 (DELETE_file fileId)) (fst first) in
    status (snd first) = 200
    /\ body (snd first)
       = Json (VObj [("success", VBool true);
                     ("message", VStr "File berhasil dihapus")])
    /\ Map_get fileId (Api.fileDatabase (fst first)) = None
    /\ status (snd second) = 404
    /\ error_code (snd second) = VStr "FILE_NOT_FOUND".
Proof.
  intros env1 env2 hdrs1 hdrs2 st fileId Hin first second.
  assert (Hfirst : first
            = ({| Api.fileDatabase := Map_remove fileId (Api.fileDatabase st) |},
               json (VObj [("success", VBool true);
                           ("message", VStr "File berhasil dihapus")])
                 api_opened)).
  { subst first. unfold Api.app, request, route; rewrite Api_opened_runs; unfold Api.delete_file, Map_delete.
    now rewrite Hin. }
  subst second. rewrite Hfirst. cbv [fst snd].
  repeat split.
  - apply Map_get_remove_same.
  - unfold Api.app, request, route; rewrite Api_opened_runs; unfold Api.delete_file, Map_delete.
    cbv [Api.fileDatabase]. rewrite Map_has_remove_same. reflexivity.
  - unfold Api.app, request, route; rewrite Api_opened_runs; unfold Api.delete_file, Map_delete.
    cbv [Api.fileDatabase]. rewrite Map_has_remove_same. reflexivity.
Qed.

(** Deleting twice the record a first upload stored. *)
Lemma C6_delete_twice_witness :
  let env := env_of xff "2024-01-01T00:00:00.000Z" in
  let st := fst (Api.app env (upload_request [] (Some (part_of "a" [x61])))
                   Api.init) in
  let del := request [] (DELETE_file "ffffffffffffffffffffffffffffffff") in
  status (snd (Api.app env del st)) = 200
  /\ status (snd (Api.app env del (fst (Api.app env del st)))) = 404.
Proof.
  intros env st del.
  destruct (C6_delete_twice env env [] [] st
              "ffffffffffffffffffffffffffffffff" eq_refl)
    as (H1 & _ & _ & H4 & _).
  split; [exact H1 | exact H4].
Defined.

End NotFound.

(** ** What a request does to the store *)

Section StoreEffect.
Import JS Express Props.

(** multer hands a file on only for a part it lets through. *)
Lemma single_file fileSize body f :
  Multer.single fileSize body = inr (Some f) ->
  exists p, body = Some p /\ accepted fileSize p = true
            /\ f = Multer.memoryStorage p.
Proof.
  intros H.
  destruct (accepted_or_not fileSize body) as [(p & -> & Hacc) | Hrej].
  - rewrite (single_accepted _ _ Hacc) in H. injection H as <-.
    exists p. auto.
  - destruct body as [p |]; [| discriminate].
    destruct (single_not_accepted _ _ (Hrej p eq_refl)) as [E | [code E]];
      rewrite E in H; discriminate.
Qed.

Lemma api_event_accepted env req p :
  route req = POST_upload (Some p) ->
  accepted (20 * 1024 * 1024) p = true ->
  api_event env req
  = Some (Put (generated_id env)
            (snd (Api.make_fileInfo env req (Multer.memoryStorage p)))).
Proof.
  intros Hr Hacc. pose proof (accepted_length _ _ Hacc) as Hlen.
  unfold api_event. rewrite Hr. unfold Api.upload.
  rewrite (single_accepted _ _ Hacc).
  change (Multer.size (Multer.memoryStorage p))
    with (Z.of_nat (List.length (Multer.part_data p))).
  destruct (Z.ltb_spec (20 * 1024 * 1024)
              (Z.of_nat (List.length (Multer.part_data p)))); [lia |].
  reflexivity.
Qed.

Lemma api_event_refused env req body :
  route req = POST_upload body ->
  (forall p, body = Some p -> accepted (20 * 1024 * 1024) p = false) ->
  api_event env req = None.
Proof.
  intros Hr Hrej. unfold api_event. rewrite Hr. unfold Api.upload.
  destruct body as [p |]; [| reflexivity].
  destruct (single_not_accepted _ _ (Hrej p eq_refl)) as [-> | [code ->]];
    reflexivity.
Qed.

Lemma part000_event_accepted env req p :
  route req = POST_upload (Some p) ->
  accepted (25 * 1024 * 1024) p = true ->
  part000_event env req
  = Some (Put (generated_id env)
            (snd (Part000.make_fileInfo env req (Multer.memoryStorage p)))).
Proof.
  intros Hr Hacc. unfold part000_event. rewrite Hr. unfold Part000.upload.
  now rewrite (single_accepted _ _ Hacc).
Qed.

Lemma part000_event_refused env req body :
  route req = POST_upload body ->
  (forall p, body = Some p -> accepted (25 * 1024 * 1024) p = false) ->
  part000_event env req = None.
Proof.
  intros Hr Hrej. unfold part000_event. rewrite Hr. unfold Part000.upload.
  destruct body as [p |]; [| reflexivity].
  destruct (single_not_accepted _ _ (Hrej p eq_refl)) as [-> | [code ->]];
    reflexivity.
Qed.

Lemma Api_app_store env req st :
  Api.fileDatabase (fst (Api.app env req st))
  = apply_event (api_event env req) (Api.fileDatabase st).
Proof.
  destruct (route req) as [body | k | k | | k | | | path | code |] eqn:Hr;
    try (unfold api_event, Api.app; rewrite Hr;
         try rewrite Api_opened_runs; reflexivity).
  - destruct (accepted_or_not (20 * 1024 * 1024) body)
      as [(p & -> & Hacc) | Hrej].
    + rewrite (api_event_accepted env req p Hr Hacc).
      now destruct (Api_upload_accepted env req p st Hr Hacc) as (-> & _).
    + rewrite (api_event_refused env req body Hr Hrej).
      now destruct (Api_upload_refused env req body st Hr Hrej) as (-> & _).
  - unfold api_event, Api.app. rewrite Hr, Api_opened_runs.
    unfold Api.delete_file, Map_delete.
    destruct (Map_has k (Api.fileDatabase st)); reflexivity.
Qed.

Lemma Part000_app_store env req st :
  Part000.fileDatabase (fst (Part000.app env req st))
  = apply_event (part000_event env req) (Part000.fileDatabase st).
Proof.
  destruct (route req) as [body | k | k | | k | | | path | code |] eqn:Hr;
    try (unfold part000_event, Part000.app; rewrite Hr; reflexivity).
  destruct (accepted_or_not (25 * 1024 * 1024) body)
    as [(p & -> & Hacc) | Hrej].
  - rewrite (part000_event_accepted env req p Hr Hacc).
    now destruct (Part000_upload_accepted env req p st Hr Hacc) as (-> & _).
  - rewrite (part000_event_refused env req body Hr Hrej).
    now destruct (Part000_upload_refused env req body st Hr Hrej) as (-> & _).
Qed.

(** Every record an upload builds has its [size] equal to the length of its
    [buffer]. *)
Lemma event_size_matches env req :
  (forall fileId fileInfo,
      api_event env req = Some (Put fileId fileInfo) ->
      size_matches fileInfo = true)
  /\ (forall fileId fileInfo,
      part000_event env req = Some (Put fileId fileInfo) ->
      size_matches fileInfo = true).
Proof.
  unfold api_event, part000_event, Api.upload, Part000.upload.
  split; intros fileId fileInfo;
    destruct (route req) as [body | k | k | | k | | | path | code |];
    try discriminate.
  - destruct (Multer.single _ body) as [e | [f |]] eqn:Hu; try discriminate.
    destruct (single_file _ _ _ Hu) as (p & _ & _ & ->).
    destruct (_ <? _); try discriminate.
    intros H; injection H as _ <-.
    unfold size_matches; simpl; apply Z.eqb_refl.
  - destruct (Multer.single _ body) as [e | [f |]] eqn:Hu; try discriminate.
    destruct (single_file _ _ _ Hu) as (p & _ & _ & ->).
    intros H; injection H as _ <-.
    unfold size_matches; simpl; apply Z.eqb_refl.
Qed.

Lemma apply_event_sizes_match ev db :
  (forall fileId fileInfo,
      ev = Some (Put fileId fileInfo) -> size_matches fileInfo = true) ->
  sizes_match db = true -> sizes_match (apply_event ev db) = true.
Proof.
  intros Hev Hdb. unfold sizes_match in *.
  destruct ev as [[fileId fileInfo | fileId] |]; simpl; auto.
  - apply forallb_Map_set; auto. simpl. eauto.
  - now apply forallb_Map_remove.
Qed.

(** Every request keeps the keys of the store pairwise distinct. *)
Lemma app_store_wf env req :
  (forall st, Map_wf (Api.fileDatabase st) ->
              Map_wf (Api.fileDatabase (fst (Api.app env req st))))
  /\ (forall st, Map_wf (Part000.fileDatabase st) ->
                 Map_wf (Part000.fileDatabase (fst (Part000.app env req st)))).
Proof.
  assert (Hev : forall ev (db : Map obj),
             Map_wf db -> Map_wf (apply_event ev db)).
  { intros [[k o | k] |] db Hwf; simpl; auto using Map_set_wf, Map_remove_wf. }
  split; intros st Hwf.
  - rewrite Api_app_store. now apply Hev.
  - rewrite Part000_app_store. now apply Hev.
Qed.

End StoreEffect.

(** ** The size invariant *)

Section SizeInvariant.
Import JS Express Props.

Lemma Api_step_sizes_match env req st :
  sizes_match (Api.fileDatabase st) = true ->
  sizes_match (Api.fileDatabase (fst (Api.app env req st))) = true.
Proof.
  intros Hinv. rewrite Api_app_store.
  apply apply_event_sizes_match; auto.
  apply (proj1 (event_size_matches env req)).
Qed.

Lemma Part000_step_sizes_match env req st :
  sizes_match (Part000.fileDatabase st) = true ->
  sizes_match (Part000.fileDatabase (fst (Part000.app env req st))) = true.
Proof.
  intros Hinv. rewrite Part000_app_store.
  apply apply_event_sizes_match; auto.
  apply (proj2 (event_size_matches env req)).
Qed.

Lemma Api_run_sizes_match reqs : forall st,
  sizes_match (Api.fileDatabase st) = true ->
  sizes_match (Api.fileDatabase (Api.run reqs st)) = true.
Proof.
  induction reqs as [| [env req] reqs IH]; intros st Hinv; simpl; auto.
  apply IH. now apply Api_step_sizes_match.
Qed.

Lemma Part000_run_sizes_match reqs : forall st,
  sizes_match (Part000.fileDatabase st) = true ->
  sizes_match (Part000.fileDatabase (Part000.run reqs st)) = true.
Proof.
  induction reqs as [| [env req] reqs IH]; intros st Hinv; simpl; auto.
  apply IH. now apply Part000_step_sizes_match.
Qed.

(** C8. In every record of the store the [size] property equals the byte
    length of the [buffer] property: every request preserves this, and so it
    holds of every store reached from a cold start. Both variants. *)
Theorem C8_size_equals_payload_length :
  (forall env req st,
      sizes_match (Api.fileDatabase st) = true ->
      sizes_match (Api.fileDatabase (fst (Api.app env req st))) = true)
  /\ (forall reqs,
      sizes_match (Api.fileDatabase (Api.run reqs Api.init)) = true)
  /\ (forall env req st,
      sizes_match (Part000.fileDatabase st) = true ->
      sizes_match (Part000.fileDatabase (fst (Part000.app env req st)))
      = true)
  /\ (forall reqs,
      sizes_match (Part000.fileDatabase (Part000.run reqs Part000.init))
      = true).
Proof.
  repeat apply conj.
  - apply Api_step_sizes_match.
  - intros reqs. now apply Api_run_sizes_match.
  - apply Part000_step_sizes_match.
  - intros reqs. now apply Part000_run_sizes_match.
Qed.

(** The invariant across a second upload, in both variants. *)
Lemma C8_size_witness :
  let env := env_of x10 "2024-01-01T00:00:00.000Z" in
  let env' := env_of x11 "2024-01-01T00:00:01.000Z" in
  let up := upload_request [] (Some (part_of "a" [x61; x62])) in
  let up' := upload_request [] (Some (part_of "b" [x63; x64; x65])) in
  sizes_match
    (Api.fileDatabase (fst (Api.app env' up' (fst (Api.app env up Api.init)))))
  = true
  /\ sizes_match
       (Part000.fileDatabase
          (fst (Part000.app env' up'
                  (fst (Part000.app env up Part000.init)))))
     = true.
Proof.
  intros env env' up up'. split.
  - apply (proj1 C8_size_equals_payload_length). reflexivity.
  - apply (proj1 (proj2 (proj2 C8_size_equals_payload_length))). reflexivity.
Defined.

End SizeInvariant.

(** ** Identifiers *)

Section Identifiers.
Import JS Express Props.

Lemma generated_id_shape env :
  String.length (generated_id env) = 32%nat
  /\ Crypto.all_hex (generated_id env) = true.
Proof.
  unfold generated_id. split.
  - now rewrite toString_hex_length, randomBytes_length.
  - apply toString_hex_all_hex.
Qed.

Lemma generated_id_inj env1 env2 :
  generated_id env1 = generated_id env2
  <-> Crypto.randomBytes 16 (entropy env1)
      = Crypto.randomBytes 16 (entropy env2).
Proof.
  unfold generated_id. split.
  - apply toString_hex_inj.
  - now intros ->.
Qed.

(** C9. Every upload multer lets through answers with an identifier, the
    hexadecimal print of the 16 bytes drawn from the server's entropy for
    that request, and files the record under it: 32 characters, all of them
    hexadecimal digits. No upload request announces any other identifier.
    Two accepted uploads announce the same identifier exactly when the 16
    bytes drawn are the same, whatever the two requests and the two stores
    are. Both variants. *)
Theorem C9_id_is_hex_of_server_randomness :
  (forall env req p st,
      route req = POST_upload (Some p) ->
      accepted (20 * 1024 * 1024) p = true ->
      let fileId := Crypto.toString_hex (Crypto.randomBytes 16 (entropy env)) in
      uploaded_id (snd (Api.app env req st)) = Some fileId
      /\ Map_has fileId (Api.fileDatabase (fst (Api.app env req st))) = true
      /\ List.length (Crypto.randomBytes 16 (entropy env)) = 16%nat
      /\ String.length fileId = 32%nat
      /\ Crypto.all_hex fileId = true)
  /\ (forall env req body st fileId,
      route req = POST_upload body ->
      uploaded_id (snd (Api.app env req st)) = Some fileId ->
      fileId = Crypto.toString_hex (Crypto.randomBytes 16 (entropy env)))
  /\ (forall env1 env2 req1 req2 p1 p2 st1 st2,
      route req1 = POST_upload (Some p1) ->
      route req2 = POST_upload (Some p2) ->
      accepted (20 * 1024 * 1024) p1 = true ->
      accepted (20 * 1024 * 1024) p2 = true ->
      (uploaded_id (snd (Api.app env1 req1 st1))
       = uploaded_id (snd (Api.app env2 req2 st2))
       <-> Crypto.randomBytes 16 (entropy env1)
           = Crypto.randomBytes 16 (entropy env2)))
  /\ (forall env req p st,
      route req = POST_upload (Some p) ->
      accepted (25 * 1024 * 1024) p = true ->
      let fileId := Crypto.toString_hex (Crypto.randomBytes 16 (entropy env)) in
      uploaded_id (snd (Part000.app env req st)) = Some fileId
      /\ Map_has fileId (Part000.fileDatabase (fst (Part000.app env req st)))
         = true
      /\ List.length (Crypto.randomBytes 16 (entropy env)) = 16%nat
      /\ String.length fileId = 32%nat
      /\ Crypto.all_hex fileId = true)
  /\ (forall env req body st fileId,
      route req = POST_upload body ->
      uploaded_id (snd (Part000.app env req st)) = Some fileId ->
      fileId = Crypto.toString_hex (Crypto.randomBytes 16 (entropy env)))
  /\ (forall env1 env2 req1 req2 p1 p2 st1 st2,
      route req1 = POST_upload (Some p1) ->
      route req2 = POST_upload (Some p2) ->
      accepted (25 * 1024 * 1024) p1 = true ->
      accepted (25 * 1024 * 1024) p2 = true ->
      (uploaded_id (snd (Part000.app env1 req1 st1))
       = uploaded_id (snd (Part000.app env2 req2 st2))
       <-> Crypto.randomBytes 16 (entropy env1)
           = Crypto.randomBytes 16 (entropy env2))).
Proof.
  assert (HA : forall env req p st,
             route req = POST_upload (Some p) ->
             accepted (20 * 1024 * 1024) p = true ->
             uploaded_id (snd (Api.app env req st)) = Some (generated_id env)).
  { intros env req p st Hr Hacc.
    destruct (Api_upload_accepted env req p st Hr Hacc) as (_ & _ & Hd).
    unfold uploaded_id. now rewrite Hd. }
  assert (HP : forall env req p st,
             route req = POST_upload (Some p) ->
             accepted (25 * 1024 * 1024) p = true ->
             uploaded_id (snd (Part000.app env req st))
             = Some (generated_id env)).
  { intros env req p st Hr Hacc.
    destruct (Part000_upload_accepted env req p st Hr Hacc) as (_ & _ & Hd).
    unfold uploaded_id. rewrite Hd. reflexivity. }
  repeat apply conj.
  - intros env req p st Hr Hacc fileId. subst fileId.
    fold (generated_id env).
    destruct (generated_id_shape env) as [Hlen Hhex].
    split; [now apply (HA env req p st) |].
    split.
    { destruct (Api_upload_accepted env req p st Hr Hacc) as (-> & _).
      unfold Map_has. cbn [Api.fileDatabase]. now rewrite Map_get_set_same. }
    repeat split; auto using randomBytes_length.
  - intros env req body st fileId Hr Hid.
    now destruct (Api_uploaded_id_inv _ _ _ _ _ Hr Hid) as (-> & _).
  - intros env1 env2 req1 req2 p1 p2 st1 st2 Hr1 Hr2 Ha1 Ha2.
    rewrite (HA env1 req1 p1 st1 Hr1 Ha1), (HA env2 req2 p2 st2 Hr2 Ha2).
    rewrite <- generated_id_inj. split; congruence.
  - intros env req p st Hr Hacc fileId. subst fileId.
    fold (generated_id env).
    destruct (generated_id_shape env) as [Hlen Hhex].
    split; [now apply (HP env req p st) |].
    split.
    { destruct (Part000_upload_accepted env req p st Hr Hacc) as (-> & _).
      unfold Map_has. cbn [Part000.fileDatabase].
      now rewrite Map_get_set_same. }
    repeat split; auto using randomBytes_length.
  - intros env req body st fileId Hr Hid.
    now destruct (Part000_uploaded_id_inv _ _ _ _ _ Hr Hid) as (-> & _).
  - intros env1 env2 req1 req2 p1 p2 st1 st2 Hr1 Hr2 Ha1 Ha2.
    rewrite (HP env1 req1 p1 st1 Hr1 Ha1), (HP env2 req2 p2 st2 Hr2 Ha2).
    rewrite <- generated_id_inj. split; congruence.
Qed.

(** The same file uploaded under two different draws, and two different
    files uploaded under the same draw. *)
Lemma C9_id_witness :
  let up := upload_request [] (Some (part_of "a.txt" [x61])) in
  let up' :=
    upload_request [("host", "h")] (Some (part_of "b.bin" [x00; x01])) in
  let env1 := env_of x01 "2024-01-01T00:00:00.000Z" in
  let env2 := env_of x02 "2024-01-01T00:00:00.000Z" in
  uploaded_id (snd (Api.app env1 up Api.init))
  = Some "01010101010101010101010101010101"
  /\ uploaded_id (snd (Api.app env1 up Api.init))
     <> uploaded_id (snd (Api.app env2 up Api.init))
  /\ uploaded_id (snd (Part000.app env1 up Part000.init))
     = uploaded_id (snd (Part000.app env1 up' Part000.init)).
Proof.
  intros up up' env1 env2. repeat apply conj.
  - apply (proj1 C9_id_is_hex_of_server_randomness env1 up
             (part_of "a.txt" [x61]) Api.init eq_refl eq_refl).
  - intros H.
    apply (proj1 (proj2 (proj2 C9_id_is_hex_of_server_randomness))
             env1 env2 up up (part_of "a.txt" [x61]) (part_of "a.txt" [x61])
             Api.init Api.init eq_refl eq_refl eq_refl eq_refl) in H.
    vm_compute in H. discriminate H.
  - apply (proj2 (proj2 (proj2 (proj2 (proj2
             C9_id_is_hex_of_server_randomness))))
             env1 env1 up up' (part_of "a.txt" [x61])
             (part_of "b.bin" [x00; x01])
             Part000.init Part000.init eq_refl eq_refl eq_refl eq_refl).
    reflexivity.
Defined.

End Identifiers.

(** ** Order of the listing *)

Section ListingOrder.
Import JS Express Props.

(** Without a collision, the [Map] and the list of survivors move alike. *)
Lemma apply_event_survive ev (db : Map obj) :
  match ev with
  | Put fileId _ => negb (Map_has fileId db)
  | Remove _ => true
  end = true ->
  apply_event (Some ev) db = survive db ev.
Proof.
  destruct ev as [fileId fileInfo | fileId]; simpl; auto.
  intros H. apply negb_true_iff in H.
  now rewrite Map_set_absent, Map_remove_absent.
Qed.

Lemma Api_run_survivors reqs : forall st,
  collision_free_from (Api.fileDatabase st) (log_of api_event reqs) = true ->
  Api.fileDatabase (Api.run reqs st)
  = fold_left survive (log_of api_event reqs) (Api.fileDatabase st).
Proof.
  induction reqs as [| [env req] reqs IH]; intros st Hfree; [reflexivity |].
  simpl in *. pose proof (Api_app_store env req st) as Hstep.
  destruct (api_event env req) as [ev |].
  - simpl in Hfree. apply andb_true_iff in Hfree as [Hev Hrest].
    rewrite apply_event_survive in Hstep by exact Hev.
    simpl. rewrite <- Hstep in *. now apply IH.
  - simpl in Hstep. rewrite <- Hstep. apply IH. now rewrite Hstep.
Qed.

Lemma Part000_run_survivors reqs : forall st,
  collision_free_from (Part000.fileDatabase st) (log_of part000_event reqs)
  = true ->
  Part000.fileDatabase (Part000.run reqs st)
  = fold_left survive (log_of part000_event reqs) (Part000.fileDatabase st).
Proof.
  induction reqs as [| [env req] reqs IH]; intros st Hfree; [reflexivity |].
  simpl in *. pose proof (Part000_app_store env req st) as Hstep.
  destruct (part000_event env req) as [ev |].
  - simpl in Hfree. apply andb_true_iff in Hfree as [Hev Hrest].
    rewrite apply_event_survive in Hstep by exact Hev.
    simpl. rewrite <- Hstep in *. now apply IH.
  - simpl in Hstep. rewrite <- Hstep. apply IH. now rewrite Hstep.
Qed.

(** C10, as amended. [GET /files] lists the summaries of the records in
    the store in the iteration order of the [Map]; after any sequence of
    requests from a cold start in which no upload drew an identifier that
    was in the store at that moment, this is the order in which the
    surviving records were inserted. Both variants. *)
Theorem C10_listing_in_insertion_order_without_collision :
  (forall st env hdrs,
      listing (snd (Api.app env (request hdrs GET_files) st))
      = Some (map summary (Map_values (Api.fileDatabase st))))
  /\ (forall reqs env hdrs,
      collision_free (log_of api_event reqs) = true ->
      listing (snd (Api.app env (request hdrs GET_files)
                      (Api.run reqs Api.init)))
      = Some (map summary (Map_values (survivors (log_of api_event reqs)))))
  /\ (forall st env hdrs,
      listing (snd (Part000.app env (request hdrs GET_files) st))
      = Some (map summary (Map_values (Part000.fileDatabase st))))
  /\ (forall reqs env hdrs,
      collision_free (log_of part000_event reqs) = true ->
      listing (snd (Part000.app env (request hdrs GET_files)
                      (Part000.run reqs Part000.init)))
      = Some (map summary
                (Map_values (survivors (log_of part000_event reqs))))).
Proof.
  repeat apply conj.
  - reflexivity.
  - intros reqs env hdrs Hfree.
    unfold Api.app, request, route; rewrite Api_opened_runs; unfold Api.get_files, listing, data_of.
    cbv [body json get_prop String.eqb Ascii.eqb Bool.eqb].
    now rewrite (Api_run_survivors reqs Api.init Hfree).
  - reflexivity.
  - intros reqs env hdrs Hfree.
    unfold Part000.app, request, route, Part000.get_files, listing, data_of.
    cbv [body json get_prop String.eqb Ascii.eqb Bool.eqb].
    now rewrite (Part000_run_survivors reqs Part000.init Hfree).
Qed.

(** Two uploads, a delete of the first and a third upload: the listing is
    the second record, then the third. *)
Lemma C10_listing_witness :
  let env := env_of x00 "2024-01-01T00:00:09.000Z" in
  listing (snd (Api.app env (request [] GET_files)
                  (Api.run distinct_uploads Api.init)))
  = Some (map summary
            (Map_values (survivors (log_of api_event distinct_uploads))))
  /\ listing (snd (Part000.app env (request [] GET_files)
                     (Part000.run distinct_uploads Part000.init)))
     = Some (map summary
               (Map_values (survivors (log_of part000_event distinct_uploads)))).
Proof.
  intros env. split.
  - apply (proj1 (proj2 C10_listing_in_insertion_order_without_collision)
             distinct_uploads env []).
    vm_compute. reflexivity.
  - apply (proj2 (proj2 (proj2
             C10_listing_in_insertion_order_without_collision))
             distinct_uploads env []).
    vm_compute. reflexivity.
Defined.

(** When the third upload draws the identifier of the first, its record is
    listed first, before the record of the second upload, although it was
    inserted after it. *)
Lemma C10_collision_counterexample :
  listing (snd (Api.app (env_of x00 "2024-01-01T00:00:09.000Z")
                  (request [] GET_files)
                  (Api.run colliding_uploads Api.init)))
  <> Some (map summary
             (Map_values (survivors (log_of api_event colliding_uploads)))).
Proof.
  intros H. vm_compute in H. discriminate H.
Qed.

(** The same run, by name: the listing shows the third file before the
    second, the order of insertion is the second before the third. *)
Example colliding_uploads_by_name :
  option_map names_of
    (listing (snd (Api.app (env_of x00 "2024-01-01T00:00:09.000Z")
                     (request [] GET_files)
                     (Api.run colliding_uploads Api.init))))
  = Some [VStr "third.txt"; VStr "second.txt"]
  /\ names_of
       (map summary
          (Map_values (survivors (log_of api_event colliding_uploads))))
     = [VStr "second.txt"; VStr "third.txt"].
Proof. split; reflexivity. Qed.

(** An upload multer refuses leaves no store event and no entry in the
    listing: of a nameless part, a part in another field and a file, only
    the file is logged and listed. *)
Example refused_uploads_are_not_listed :
  names_of (map summary
              (Map_values
                 (survivors (log_of api_event refused_then_accepted_uploads))))
  = [VStr "kept.txt"]
  /\ option_map names_of
       (listing (snd (Api.app (env_of x00 "2024-01-01T00:00:09.000Z")
                        (request [] GET_files)
                        (Api.run refused_then_accepted_uploads Api.init))))
     = Some [VStr "kept.txt"]
  /\ names_of (map summary
                 (Map_values
                    (survivors
                       (log_of part000_event refused_then_accepted_uploads))))
     = [VStr "kept.txt"]
  /\ option_map names_of
       (listing (snd (Part000.app (env_of x00 "2024-01-01T00:00:09.000Z")
                        (request [] GET_files)
                        (Part000.run refused_then_accepted_uploads
                           Part000.init))))
     = Some [VStr "kept.txt"].
Proof. repeat split; reflexivity. Qed.

(** A part that reaches the size limit is no store event either, however
    long it is. *)
Lemma upload_at_the_limit_is_no_event env req p :
  route req = POST_upload (Some p) ->
  (20 * 1024 * 1024 <= Z.of_nat (List.length (Multer.part_data p)) ->
   api_event env req = None)
  /\ (25 * 1024 * 1024 <= Z.of_nat (List.length (Multer.part_data p)) ->
      part000_event env req = None).
Proof.
  intros Hr. split; intros Hbig.
  - apply (api_event_refused env req (Some p) Hr).
    intros p' [= <-]. unfold accepted.
    destruct (Z.ltb_spec (Z.of_nat (List.length (Multer.part_data p)))
                (20 * 1024 * 1024)); [lia |].
    now rewrite andb_false_r.
  - apply (part000_event_refused env req (Some p) Hr).
    intros p' [= <-]. unfold accepted.
    destruct (Z.ltb_spec (Z.of_nat (List.length (Multer.part_data p)))
                (25 * 1024 * 1024)); [lia |].
    now rewrite andb_false_r.
Qed.

End ListingOrder.

(** ** URLs of stored files *)

Section Urls.
Import JS Express Props Obs.

Lemma string_append_assoc (a b c : string) :
  ((a ++ b) ++ c)%string = (a ++ (b ++ c))%string.
Proof. induction a as [| x a IH]; simpl; [reflexivity | now rewrite IH]. Qed.

Lemma truthy_nonempty s : s <> EmptyString -> truthy (VStr s) = true.
Proof. destruct s; [congruence | reflexivity]. Qed.

(** X1. The two variants file the same upload alike: for the same request, entropy
    and [req.file] the two records agree on [id], [filename], [size],
    [buffer] and [url], although one builds the URL with [getBaseUrl] and the
    other with [generateFileUrl]. *)
Theorem records_agree_across_variants :
  forall env req f k,
    In k ["id"; "filename"; "size"; "buffer"; "url"] ->
    fst (Api.make_fileInfo env req f) = fst (Part000.make_fileInfo env req f)
    /\ get_prop k (snd (Api.make_fileInfo env req f))
       = get_prop k (snd (Part000.make_fileInfo env req f)).
Proof.
  intros env req f k Hk. split; [reflexivity |].
  simpl in Hk.
  destruct Hk as [<- | [<- | [<- | [<- | [<- | []]]]]]; try reflexivity.
  unfold Api.make_fileInfo, Part000.make_fileInfo, Api.getBaseUrl,
    Part000.generateFileUrl.
  cbv [snd get_prop String.eqb Ascii.eqb Bool.eqb].
  now rewrite !string_append_assoc.
Qed.

Lemma records_agree_witness :
  get_prop "url"
    (snd (Api.make_fileInfo (env_of x01 "t") forwarded_request
            (Multer.memoryStorage (part_of "a.txt" [x61]))))
  = get_prop "url"
      (snd (Part000.make_fileInfo (env_of x01 "t") forwarded_request
              (Multer.memoryStorage (part_of "a.txt" [x61])))).
Proof.
  apply (records_agree_across_variants (env_of x01 "t") forwarded_request
           (Multer.memoryStorage (part_of "a.txt" [x61])) "url").
  simpl. tauto.
Defined.

(** X2. [getBaseUrl] prefers the forwarded host and protocol to the request's
    own: non-empty [x-forwarded-host] and [x-forwarded-proto] headers decide
    the URL whatever [host] says; without either, the URL is [https] on
    [host]; with no host header at all its host part reads [undefined]. *)
Theorem getBaseUrl_precedence :
  (forall req h p,
      header req "x-forwarded-host" = VStr h -> h <> EmptyString ->
      header req "x-forwarded-proto" = VStr p -> p <> EmptyString ->
      Api.getBaseUrl req = (p ++ "://" ++ h)%string)
  /\ (forall req h,
      truthy (header req "x-forwarded-host") = false ->
      truthy (header req "x-forwarded-proto") = false ->
      header req "host" = VStr h ->
      Api.getBaseUrl req = ("https://" ++ h)%string)
  /\ (forall req,
      header req "x-forwarded-host" = VUndefined ->
      header req "host" = VUndefined ->
      truthy (header req "x-forwarded-proto") = false ->
      Api.getBaseUrl req = "https://undefined").
Proof.
  repeat apply conj.
  - intros req h p Hh Hne Hp Hpne. unfold Api.getBaseUrl, js_or.
    rewrite Hh, Hp, !truthy_nonempty by assumption. reflexivity.
  - intros req h Hfh Hfp Hh. unfold Api.getBaseUrl, js_or.
    rewrite Hfh, Hfp, Hh. reflexivity.
  - intros req Hfh Hh Hfp. unfold Api.getBaseUrl, js_or.
    rewrite Hfh, Hh, Hfp. reflexivity.
Qed.

Lemma getBaseUrl_precedence_witness :
  Api.getBaseUrl forwarded_request = "http://cdn.example"
  /\ Api.getBaseUrl (request [("host", "cdn.example")] GET_api)
     = "https://cdn.example"
  /\ Api.getBaseUrl (request [("x-forwarded-proto", EmptyString)] GET_api)
     = "https://undefined".
Proof.
  repeat apply conj.
  - apply (proj1 getBaseUrl_precedence forwarded_request
             "cdn.example" "http"); try reflexivity; discriminate.
  - apply (proj1 (proj2 getBaseUrl_precedence)
             (request [("host", "cdn.example")] GET_api) "cdn.example");
      reflexivity.
  - apply (proj2 (proj2 getBaseUrl_precedence)
             (request [("x-forwarded-proto", EmptyString)] GET_api)); reflexivity.
Defined.



End Urls.

(** ** Response headers *)

Section Headers.
Import JS Express Props Obs.

(** X4. [src/api/index.js] opens its answers to other origins: every
    response, errors of multer and 404s included, carries the three
    cross-origin headers set by its cross-origin middleware, and no handler
    overwrites them; the one exception is a request whose body the body
    parsers refuse, which is answered 500 before that middleware runs and
    carries none of them. *)
Theorem Api_responses_allow_cross_origin :
  (forall env req st,
      (forall code, route req <> Unparsable code) ->
      let res := snd (Api.app env req st) in
      header_of "Access-Control-Allow-Origin" res = Some (VStr "*")
      /\ header_of "Access-Control-Allow-Methods" res
         = Some (VStr "GET, POST, PUT, DELETE, OPTIONS")
      /\ header_of "Access-Control-Allow-Headers" res
         = Some (VStr "Content-Type, Authorization"))
  /\ (forall env req st code,
      route req = Unparsable code ->
      let res := snd (Api.app env req st) in
      status res = 500
      /\ error_code res = VStr "INTERNAL_SERVER_ERROR"
      /\ header_of "Access-Control-Allow-Origin" res = None
      /\ header_of "Access-Control-Allow-Methods" res = None
      /\ header_of "Access-Control-Allow-Headers" res = None).
Proof.
  split.
  - intros env req st Hparsed res. subst res. unfold Api.app.
    destruct (route req) as [body | k | k | | k | | | path | code |] eqn:Hr;
      try rewrite Api_opened_runs; try (repeat split; fail).
    + unfold Api.upload.
      destruct (accepted_or_not (20 * 1024 * 1024) body)
        as [(p & -> & Hacc) | Hrej].
      * rewrite (single_accepted _ _ Hacc). unfold Api.post_upload.
        destruct (_ <? Multer.size (Multer.memoryStorage p)); repeat split.
      * destruct body as [p |]; [| repeat split].
        destruct (single_not_accepted _ _ (Hrej p eq_refl))
          as [-> | [c ->]]; [repeat split |].
        unfold Api.error_middleware.
        destruct (String.eqb c "LIMIT_FILE_SIZE"); repeat split.
    + cbn [snd]. unfold header_of.
      destruct (Map_get k (Api.fileDatabase st)) as [fileInfo |] eqn:Hk.
      * destruct (Api_get_file_stored k st api_opened fileInfo Hk)
          as [Hok Hfail].
        destruct (header_value_ok (get_prop "mimetype" fileInfo)
                  && header_value_ok (get_prop "size" fileInfo)
                  && header_text_ok (disposition fileInfo)).
        -- destruct (Hok eq_refl) as (_ & _ & Hh).
           rewrite !Hh by (simpl; tauto). repeat split.
        -- destruct (Hfail eq_refl) as (_ & _ & Hh).
           rewrite !Hh by (simpl; tauto). repeat split.
      * unfold Api.get_file. rewrite Hk. repeat split.
    + unfold Api.get_info.
      destruct (Map_get k (Api.fileDatabase st)); repeat split.
    + unfold Api.delete_file, Map_delete.
      destruct (Map_has k (Api.fileDatabase st)); repeat split.
    + exfalso. now apply (Hparsed code).
  - intros env req st code Hr res. subst res.
    unfold Api.app. rewrite Hr. repeat split.
Qed.

Lemma Api_cross_origin_witness :
  let env := env_of x01 "2024-01-01T00:00:00.000Z" in
  header_of "Access-Control-Allow-Origin"
    (snd (Api.app env (upload_request [] (Some misfiled_part)) Api.init))
  = Some (VStr "*")
  /\ header_of "Access-Control-Allow-Origin"
       (snd (Api.app env (request [] (Unparsable 400)) Api.init))
     = None.
Proof.
  intros env. split.
  - apply (proj1 Api_responses_allow_cross_origin env
             (upload_request [] (Some misfiled_part)) Api.init).
    discriminate.
  - apply (proj2 Api_responses_allow_cross_origin env
             (request [] (Unparsable 400)) Api.init 400 eq_refl).
Defined.

(** X5. [src/unnamed/part_000] sets [Access-Control-Allow-Origin] in one
    place only, last in the [try] block of its file handler: a response
    carries it exactly when it is the answer of [GET /file/:id] for a
    stored record whose type and [Content-Disposition] text are header
    values, that is, exactly when the file is served. *)
Theorem Part000_cross_origin_only_on_served_files :
  forall env req st,
    header_of "Access-Control-Allow-Origin" (snd (Part000.app env req st))
    = Some (VStr "*")
    <-> exists fileId fileInfo,
          route req = GET_file fileId
          /\ Map_get fileId (Part000.fileDatabase st) = Some fileInfo
          /\ part000_servable fileInfo = true.
Proof.
  intros env req st. unfold Part000.app.
  destruct (route req) as [body | k | k | | k | | | path | code |] eqn:Hr;
    try (split; [discriminate |];
         intros (i0 & o0 & Hi & _); discriminate Hi).
  - unfold Part000.upload.
    destruct (accepted_or_not (25 * 1024 * 1024) body)
      as [(p & -> & Hacc) | Hrej].
    + rewrite (single_accepted _ _ Hacc).
      split; [discriminate | intros (i0 & o0 & Hi & _); discriminate Hi].
    + destruct body as [p |];
        [destruct (single_not_accepted _ _ (Hrej p eq_refl))
           as [-> | [c ->]] |];
        (split; [discriminate | intros (i0 & o0 & Hi & _); discriminate Hi]).
  - cbn [snd]. unfold header_of.
    destruct (Map_get k (Part000.fileDatabase st)) as [fileInfo |] eqn:Hk.
    + destruct (Part000_get_file_stored k st fresh fileInfo Hk)
        as [Hok Hfail].
      fold (part000_servable fileInfo) in Hok, Hfail.
      destruct (part000_servable fileInfo) eqn:Hs.
      * destruct (Hok eq_refl) as (_ & _ & Hh). rewrite Hh.
        split; [intros _; exists k, fileInfo; auto | reflexivity].
      * destruct (Hfail eq_refl) as (_ & _ & Hh). rewrite Hh.
        split; [discriminate |].
        intros (i0 & o0 & Hi & Ho & Hso). injection Hi as <-.
        rewrite Hk in Ho. injection Ho as <-. congruence.
    + unfold Part000.get_file. rewrite Hk.
      split; [discriminate |].
      intros (i0 & o0 & Hi & Ho & _). injection Hi as <-.
      rewrite Hk in Ho. discriminate.
  - unfold Part000.get_info.
    destruct (Map_get k (Part000.fileDatabase st));
      split; try discriminate; intros (i0 & o0 & Hi & _); discriminate Hi.
Qed.

Lemma Part000_cross_origin_witness :
  let env := env_of x01 "2024-01-01T00:00:00.000Z" in
  let st := fst (Part000.app env
                   (upload_request [] (Some (part_of "a" [x61])))
                   Part000.init) in
  header_of "Access-Control-Allow-Origin"
    (snd (Part000.app env
            (request [] (GET_file "01010101010101010101010101010101")) st))
  = Some (VStr "*").
Proof.
  intros env st.
  apply (proj2 (Part000_cross_origin_only_on_served_files env
                  (request [] (GET_file "01010101010101010101010101010101"))
                  st)).
  eexists _, _. repeat split; reflexivity.
Defined.

End Headers.

(** ** What changes the store, and what does not *)

Section StoreFrame.
Import JS Express Props Obs.

Lemma Api_state_eta (st : Api.State) :
  {| Api.fileDatabase := Api.fileDatabase st |} = st.
Proof. now destruct st. Qed.

(** X6. The store changes only on an accepted upload or on the delete of a
    stored identifier: a refused upload, a delete of an unknown identifier,
    every [GET] and every unmatched request leave it exactly as it was. *)
Theorem store_changes_only_on_upload_or_delete :
  (forall env req st,
      api_mutation req st = false -> fst (Api.app env req st) = st)
  /\ (forall env req st,
      part000_mutation req = false -> fst (Part000.app env req st) = st).
Proof.
  split; intros env req st Hm.
  - unfold api_mutation in Hm.
    destruct (route req) as [body | k | k | | k | | | path | code |] eqn:Hr;
      try (unfold Api.app; rewrite Hr; try rewrite Api_opened_runs;
           reflexivity).
    + apply (Api_upload_refused env req body st Hr).
      intros p ->. exact Hm.
    + unfold Api.app. rewrite Hr, Api_opened_runs.
      unfold Api.delete_file, Map_delete. rewrite Hm.
      rewrite Map_remove_absent by exact Hm. apply Api_state_eta.
  - unfold part000_mutation in Hm.
    destruct (route req) as [body | k | k | | k | | | path | code |] eqn:Hr;
      try (unfold Part000.app; rewrite Hr; reflexivity).
    apply (Part000_upload_refused env req body st Hr).
    intros p ->. exact Hm.
Qed.

Lemma store_unchanged_witness :
  let env := env_of x01 "2024-01-01T00:00:00.000Z" in
  let st := fst (Api.app env (upload_request [] (Some (part_of "a" [x61])))
                   Api.init) in
  fst (Api.app env (request [] (DELETE_file "unknown")) st) = st
  /\ fst (Part000.app env
            (request [] (DELETE_file "01010101010101010101010101010101"))
            Part000.init) = Part000.init.
Proof.
  intros env st. split.
  - apply (proj1 store_changes_only_on_upload_or_delete). reflexivity.
  - apply (proj2 store_changes_only_on_upload_or_delete). reflexivity.
Defined.

Lemma Api_reads_depend_on_entry env hdrs k st st' :
  Map_get k (Api.fileDatabase st') = Map_get k (Api.fileDatabase st) ->
  snd (Api.app env (request hdrs (GET_file k)) st')
  = snd (Api.app env (request hdrs (GET_file k)) st)
  /\ snd (Api.app env (request hdrs (GET_info k)) st')
     = snd (Api.app env (request hdrs (GET_info k)) st).
Proof.
  intros H. unfold Api.app, request, route; rewrite Api_opened_runs; unfold Api.get_file, Api.get_info.
  cbv [snd]. now rewrite H.
Qed.

Lemma Part000_reads_depend_on_entry env hdrs k st st' :
  Map_get k (Part000.fileDatabase st') = Map_get k (Part000.fileDatabase st) ->
  snd (Part000.app env (request hdrs (GET_file k)) st')
  = snd (Part000.app env (request hdrs (GET_file k)) st)
  /\ snd (Part000.app env (request hdrs (GET_info k)) st')
     = snd (Part000.app env (request hdrs (GET_info k)) st).
Proof.
  intros H.
  unfold Part000.app, request, route, Part000.get_file, Part000.get_info.
  cbv [snd]. now rewrite H.
Qed.

(** X7. Requests do not disturb each other's files: after an upload, the file
    and info answers for every identifier other than the one just drawn are
    what they were before; after a delete, so are those for every identifier
    other than the one deleted. *)
Theorem other_files_are_untouched :
  (forall env req body st k env' hdrs,
      route req = POST_upload body ->
      k <> generated_id env ->
      snd (Api.app env' (request hdrs (GET_file k)) (fst (Api.app env req st)))
      = snd (Api.app env' (request hdrs (GET_file k)) st)
      /\ snd (Api.app env' (request hdrs (GET_info k))
                (fst (Api.app env req st)))
         = snd (Api.app env' (request hdrs (GET_info k)) st))
  /\ (forall env req k' st k env' hdrs,
      route req = DELETE_file k' ->
      k <> k' ->
      snd (Api.app env' (request hdrs (GET_file k)) (fst (Api.app env req st)))
      = snd (Api.app env' (request hdrs (GET_file k)) st)
      /\ snd (Api.app env' (request hdrs (GET_info k))
                (fst (Api.app env req st)))
         = snd (Api.app env' (request hdrs (GET_info k)) st))
  /\ (forall env req body st k env' hdrs,
      route req = POST_upload body ->
      k <> generated_id env ->
      snd (Part000.app env' (request hdrs (GET_file k))
             (fst (Part000.app env req st)))
      = snd (Part000.app env' (request hdrs (GET_file k)) st)
      /\ snd (Part000.app env' (request hdrs (GET_info k))
                (fst (Part000.app env req st)))
         = snd (Part000.app env' (request hdrs (GET_info k)) st)).
Proof.
  repeat apply conj.
  - intros env req body st k env' hdrs Hr Hne.
    apply Api_reads_depend_on_entry.
    rewrite Api_app_store.
    destruct (accepted_or_not (20 * 1024 * 1024) body)
      as [(p & -> & Hacc) | Hrej].
    + rewrite (api_event_accepted env req p Hr Hacc).
      now apply Map_get_set_other.
    + now rewrite (api_event_refused env req body Hr Hrej).
  - intros env req k' st k env' hdrs Hr Hne.
    apply Api_reads_depend_on_entry.
    rewrite Api_app_store. unfold api_event. rewrite Hr.
    simpl. now apply Map_get_remove_other.
  - intros env req body st k env' hdrs Hr Hne.
    apply Part000_reads_depend_on_entry.
    rewrite Part000_app_store.
    destruct (accepted_or_not (25 * 1024 * 1024) body)
      as [(p & -> & Hacc) | Hrej].
    + rewrite (part000_event_accepted env req p Hr Hacc).
      now apply Map_get_set_other.
    + now rewrite (part000_event_refused env req body Hr Hrej).
Qed.

Lemma other_files_witness :
  let env1 := env_of x01 "2024-01-01T00:00:00.000Z" in
  let env2 := env_of x02 "2024-01-01T00:00:01.000Z" in
  let st := fst (Api.app env1 (upload_request [] (Some (part_of "a" [x61])))
                   Api.init) in
  let fetch := request [] (GET_file "01010101010101010101010101010101") in
  snd (Api.app env1 fetch
         (fst (Api.app env2 (upload_request [] (Some (part_of "b" [x62])))
                 st)))
  = snd (Api.app env1 fetch st)
  /\ snd (Api.app env1 fetch
            (fst (Api.app env2
                    (request [] (DELETE_file "0202")) st)))
     = snd (Api.app env1 fetch st).
Proof.
  intros env1 env2 st fetch. split.
  - apply (proj1 other_files_are_untouched env2
             (upload_request [] (Some (part_of "b" [x62])))
             (Some (part_of "b" [x62])) st
             "01010101010101010101010101010101" env1 [] eq_refl).
    vm_compute. discriminate.
  - apply (proj1 (proj2 other_files_are_untouched) env2
             (request [] (DELETE_file "0202")) "0202" st
             "01010101010101010101010101010101" env1 [] eq_refl).
    discriminate.
Defined.

End StoreFrame.

(** ** Uploads and deletes in sequence *)

Section Sequences.
Import JS Express Props Obs.

(** X8. A file can be deleted under the identifier its upload announced: the
    delete answers 200, and from then on the file and info routes answer 404
    with code [FILE_NOT_FOUND] for that identifier. *)
Theorem uploaded_file_can_be_deleted :
  forall env req p st fileId env1 hdrs1 env2 hdrs2,
    route req = POST_upload (Some p) ->
    uploaded_id (snd (Api.app env req st)) = Some fileId ->
    let deleted :=
      Api.app env1 (request hdrs1 (DELETE_file fileId))
        (fst (Api.app env req st)) in
    status (snd deleted) = 200
    /\ (forall r, In r [GET_file fileId; GET_info fileId] ->
          status (snd (Api.app env2 (request hdrs2 r) (fst deleted))) = 404
          /\ error_code (snd (Api.app env2 (request hdrs2 r) (fst deleted)))
             = VStr "FILE_NOT_FOUND").
Proof.
  intros env req p st fileId env1 hdrs1 env2 hdrs2 Hr Hid deleted.
  destruct (Api_uploaded_id_inv _ _ _ _ _ Hr Hid) as (-> & q & Hq & Hfit).
  injection Hq as <-.
  destruct (Api_upload_accepted env req p st Hr Hfit) as (Hst & _ & _).
  assert (Hdel : deleted
            = ({| Api.fileDatabase :=
                   Map_remove (generated_id env)
                     (Api.fileDatabase (fst (Api.app env req st))) |},
               json (VObj [("success", VBool true);
                           ("message", VStr "File berhasil dihapus")])
                 api_opened)).
  { subst deleted. unfold Api.app at 1. cbv [request route].
    unfold Api.delete_file, Map_delete, Map_has.
    rewrite Hst. cbv [Api.fileDatabase]. now rewrite Map_get_set_same. }
  rewrite Hdel. cbv [fst snd]. split; [reflexivity |].
  intros r Hin. simpl in Hin. destruct Hin as [<- | [<- | []]];
    unfold Api.app, request, route; rewrite Api_opened_runs; unfold Api.get_file, Api.get_info;
    cbv [Api.fileDatabase snd]; rewrite Map_get_remove_same; split; reflexivity.
Qed.

Lemma uploaded_file_can_be_deleted_witness :
  let env := env_of x05 "2024-01-01T00:00:00.000Z" in
  let up := upload_request [] (Some (part_of "a.txt" [x61])) in
  let fileId := "05050505050505050505050505050505" in
  status (snd (Api.app env (request [] (DELETE_file fileId))
                 (fst (Api.app env up Api.init)))) = 200.
Proof.
  intros env up fileId.
  apply (uploaded_file_can_be_deleted env up (part_of "a.txt" [x61]) Api.init
           fileId env [] env [] eq_refl eq_refl).
Defined.

(** X9. An upload that draws an identifier already in the store overwrites in
    place: the stored identifiers and their order are unchanged, no entry is
    added, and the identifier now holds the new record. Both variants. *)
Theorem colliding_upload_overwrites_in_place :
  (forall env req p st,
      route req = POST_upload (Some p) ->
      accepted (20 * 1024 * 1024) p = true ->
      Map_has (generated_id env) (Api.fileDatabase st) = true ->
      let db' := Api.fileDatabase (fst (Api.app env req st)) in
      Map_keys db' = Map_keys (Api.fileDatabase st)
      /\ Map_get (generated_id env) db'
         = Some (snd (Api.make_fileInfo env req (Multer.memoryStorage p))))
  /\ (forall env req p st,
      route req = POST_upload (Some p) ->
      accepted (25 * 1024 * 1024) p = true ->
      Map_has (generated_id env) (Part000.fileDatabase st) = true ->
      let db' := Part000.fileDatabase (fst (Part000.app env req st)) in
      Map_keys db' = Map_keys (Part000.fileDatabase st)
      /\ Map_get (generated_id env) db'
         = Some (snd (Part000.make_fileInfo env req (Multer.memoryStorage p)))).
Proof.
  split; intros env req p st Hr Hfit Hhas db'; subst db'.
  - destruct (Api_upload_accepted env req p st Hr Hfit) as (-> & _).
    cbv [Api.fileDatabase]. split.
    + now apply Map_keys_set_present.
    + apply Map_get_set_same.
  - destruct (Part000_upload_accepted env req p st Hr Hfit) as (-> & _).
    cbv [Part000.fileDatabase]. split.
    + now apply Map_keys_set_present.
    + apply Map_get_set_same.
Qed.

Lemma colliding_upload_witness :
  let env := env_of x01 "2024-01-01T00:00:00.000Z" in
  let up := upload_request [] (Some (part_of "a" [x61])) in
  let up' := upload_request [] (Some (part_of "b" [x62; x63])) in
  Map_keys (Api.fileDatabase
              (fst (Api.app env up' (fst (Api.app env up Api.init)))))
  = ["01010101010101010101010101010101"]
  /\ Map_keys (Part000.fileDatabase
                 (fst (Part000.app env up'
                         (fst (Part000.app env up Part000.init)))))
     = ["01010101010101010101010101010101"].
Proof.
  intros env up up'. split.
  - apply (proj1 colliding_upload_overwrites_in_place env up'
             (part_of "b" [x62; x63]) (fst (Api.app env up Api.init)) eq_refl).
    + reflexivity.
    + reflexivity.
  - apply (proj2 colliding_upload_overwrites_in_place env up'
             (part_of "b" [x62; x63])
             (fst (Part000.app env up Part000.init)) eq_refl).
    + reflexivity.
    + reflexivity.
Defined.

(** X10. The [count] of [GET /api/files] is the number of items it lists and the
    number of stored records; an accepted upload under an identifier new to
    the store raises it by one, and the delete of a stored identifier lowers
    it by one. *)
Theorem files_count_tracks_the_store :
  (forall env hdrs st,
      let res := snd (Api.app env (request hdrs GET_files) st) in
      exists items,
        listing res = Some items
        /\ envelope_field "count" res = VNum (Z.of_nat (List.length items))
        /\ Z.of_nat (List.length items) = Map_size (Api.fileDatabase st))
  /\ (forall env req p st env' hdrs,
      route req = POST_upload (Some p) ->
      accepted (20 * 1024 * 1024) p = true ->
      Map_has (generated_id env) (Api.fileDatabase st) = false ->
      envelope_field "count"
        (snd (Api.app env' (request hdrs GET_files) (fst (Api.app env req st))))
      = VNum (Map_size (Api.fileDatabase st) + 1))
  /\ (forall env req k st env' hdrs,
      route req = DELETE_file k ->
      Map_wf (Api.fileDatabase st) ->
      Map_has k (Api.fileDatabase st) = true ->
      envelope_field "count"
        (snd (Api.app env' (request hdrs GET_files) (fst (Api.app env req st))))
      = VNum (Map_size (Api.fileDatabase st) - 1)).
Proof.
  assert (Hcount : forall env hdrs st,
             envelope_field "count"
               (snd (Api.app env (request hdrs GET_files) st))
             = VNum (Map_size (Api.fileDatabase st))).
  { intros env hdrs st. unfold Api.app, request, route; rewrite Api_opened_runs; unfold Api.get_files.
    unfold envelope_field, Map_size, Map_values. simpl.
    now rewrite !length_map. }
  repeat apply conj.
  - intros env hdrs st res. subst res.
    exists (map summary (Map_values (Api.fileDatabase st))).
    split; [reflexivity |]. rewrite Hcount.
    unfold Map_size, Map_values, summary. now rewrite !length_map.
  - intros env req p st env' hdrs Hr Hfit Hnew.
    rewrite Hcount, Api_app_store, (api_event_accepted env req p Hr Hfit).
    unfold apply_event, Map_size.
    rewrite Map_set_length, Hnew. f_equal. lia.
  - intros env req k st env' hdrs Hr Hwf Hhas.
    rewrite Hcount, Api_app_store. unfold api_event. rewrite Hr.
    simpl. unfold Map_size.
    rewrite <- (Map_remove_length k (Api.fileDatabase st) Hwf Hhas).
    f_equal. lia.
Qed.

Lemma files_count_witness :
  let env1 := env_of x01 "2024-01-01T00:00:00.000Z" in
  let env2 := env_of x02 "2024-01-01T00:00:01.000Z" in
  let up := upload_request [] (Some (part_of "a" [x61])) in
  let st := fst (Api.app env1 up Api.init) in
  envelope_field "count"
    (snd (Api.app env1 (request [] GET_files) (fst (Api.app env2 up st))))
  = VNum 2
  /\ envelope_field "count"
       (snd (Api.app env1 (request [] GET_files)
               (fst (Api.app env1
                       (request []
                          (DELETE_file "01010101010101010101010101010101"))
                       st))))
     = VNum 0.
Proof.
  intros env1 env2 up st. split.
  - apply (proj1 (proj2 files_count_tracks_the_store) env2 up
             (part_of "a" [x61]) st env1 [] eq_refl).
    + reflexivity.
    + reflexivity.
  - apply (proj2 (proj2 files_count_tracks_the_store) env1
             (request [] (DELETE_file "01010101010101010101010101010101"))
             "01010101010101010101010101010101" st env1 [] eq_refl).
    + repeat constructor. intros [].
    + reflexivity.
Defined.

(** X11. [src/unnamed/part_000] never removes a record: an identifier that is in
    the store stays in it through every sequence of requests, and the number
    of records never goes down. *)
Theorem Part000_store_never_shrinks :
  forall reqs st,
    (forall k, Map_has k (Part000.fileDatabase st) = true ->
               Map_has k (Part000.fileDatabase (Part000.run reqs st)) = true)
    /\ Map_size (Part000.fileDatabase st)
       <= Map_size (Part000.fileDatabase (Part000.run reqs st)).
Proof.
  induction reqs as [| [env req] reqs IH]; intros st; simpl.
  - split; auto. lia.
  - destruct (IH (fst (Part000.app env req st))) as [Hkeep Hsize].
    assert (Hstep : (forall k, Map_has k (Part000.fileDatabase st) = true ->
                       Map_has k (Part000.fileDatabase
                                    (fst (Part000.app env req st))) = true)
                    /\ Map_size (Part000.fileDatabase st)
                       <= Map_size (Part000.fileDatabase
                                      (fst (Part000.app env req st)))).
    { rewrite Part000_app_store.
      destruct (part000_event env req) as [[k0 o0 | k0] |] eqn:Hev;
        try (split; [auto | simpl; lia]).
      - simpl. split.
        + intros k Hk. now apply Map_has_set.
        + unfold Map_size. rewrite Map_set_length.
          destruct (Map_has _ _); lia.
      - exfalso. unfold part000_event in Hev.
        destruct (route req); try discriminate.
        destruct (Part000.upload _) as [e | [f |]]; discriminate. }
    destruct Hstep as [Hstep1 Hstep2]. split.
    + intros k Hk. apply Hkeep, Hstep1, Hk.
    + lia.
Qed.

End Sequences.

(** ** Records are filed under their identifier *)

Section FiledUnderId.
Import JS Express Props Obs.

Lemma get_prop_rest_without_other k k' (o : obj) :
  String.eqb k' k = false ->
  get_prop k (rest_without k' o) = get_prop k o.
Proof.
  intros Hne. unfold rest_without.
  induction o as [| [k0 v] o IH]; simpl; auto.
  destruct (String.eqb k' k0) eqn:E; simpl.
  - apply String.eqb_eq in E. subst k0.
    rewrite String.eqb_sym, Hne. exact IH.
  - destruct (String.eqb k k0); auto.
Qed.

Lemma filed_under_generated_id env (o : obj) :
  get_prop "id" o = VStr (generated_id env) ->
  get_prop "filename" o = VStr (generated_id env) ->
  filed_under_id (generated_id env, o) = true.
Proof.
  intros Hi Hf. unfold filed_under_id. cbv [fst snd]. rewrite Hi, Hf.
  destruct (generated_id_shape env) as [Hlen Hhex].
  now rewrite String.eqb_refl, Hlen, Hhex.
Qed.

Lemma event_filed_under_id env req :
  (forall k o, api_event env req = Some (Put k o) ->
               filed_under_id (k, o) = true)
  /\ (forall k o, part000_event env req = Some (Put k o) ->
                  filed_under_id (k, o) = true).
Proof.
  unfold api_event, part000_event, Api.upload, Part000.upload.
  split; intros k o;
    destruct (route req) as [body | k0 | k0 | | k0 | | | path | code |];
    try discriminate.
  - destruct (Multer.single _ body) as [e | [f |]]; try discriminate.
    destruct (_ <? _); try discriminate.
    intros H; injection H as <- <-. now apply filed_under_generated_id.
  - destruct (Multer.single _ body) as [e | [f |]]; try discriminate.
    intros H; injection H as <- <-. now apply filed_under_generated_id.
Qed.

Lemma apply_event_filed ev db :
  (forall k o, ev = Some (Put k o) -> filed_under_id (k, o) = true) ->
  all_filed_under_id db = true ->
  all_filed_under_id (apply_event ev db) = true.
Proof.
  intros Hev Hdb. unfold all_filed_under_id in *.
  destruct ev as [[k o | k] |]; simpl; auto.
  - apply forallb_Map_set_entry; auto.
  - now apply forallb_Map_remove.
Qed.

Lemma Api_run_filed reqs : forall st,
  all_filed_under_id (Api.fileDatabase st) = true ->
  Map_wf (Api.fileDatabase st) ->
  all_filed_under_id (Api.fileDatabase (Api.run reqs st)) = true
  /\ Map_wf (Api.fileDatabase (Api.run reqs st)).
Proof.
  induction reqs as [| [env req] reqs IH]; intros st Hf Hwf; simpl; auto.
  apply IH.
  - rewrite Api_app_store. apply apply_event_filed; auto.
    apply (proj1 (event_filed_under_id env req)).
  - now apply (proj1 (app_store_wf env req)).
Qed.

Lemma Part000_run_filed reqs : forall st,
  all_filed_under_id (Part000.fileDatabase st) = true ->
  Map_wf (Part000.fileDatabase st) ->
  all_filed_under_id (Part000.fileDatabase (Part000.run reqs st)) = true
  /\ Map_wf (Part000.fileDatabase (Part000.run reqs st)).
Proof.
  induction reqs as [| [env req] reqs IH]; intros st Hf Hwf; simpl; auto.
  apply IH.
  - rewrite Part000_app_store. apply apply_event_filed; auto.
    apply (proj2 (event_filed_under_id env req)).
  - now apply (proj2 (app_store_wf env req)).
Qed.

Lemma filed_lookup (db : Map obj) k o :
  all_filed_under_id db = true -> Map_get k db = Some o ->
  get_prop "id" o = VStr k /\ get_prop "filename" o = VStr k
  /\ String.length k = 32%nat /\ Crypto.all_hex k = true.
Proof.
  unfold all_filed_under_id.
  induction db as [| [k0 o0] db IH]; simpl; [discriminate |].
  intros H Hget. apply andb_true_iff in H as [H0 Hrest].
  destruct (String.eqb k k0) eqn:E; [| now apply IH].
  apply String.eqb_eq in E. subst k0. injection Hget as <-.
  unfold filed_under_id in H0. cbv [fst snd] in H0.
  destruct (get_prop "id" o0) as [| | | i | | | |]; try discriminate.
  destruct (get_prop "filename" o0) as [| | | f | | | |]; try discriminate.
  apply andb_true_iff in H0 as [H0 Hhex].
  apply andb_true_iff in H0 as [H0 Hlen].
  apply andb_true_iff in H0 as [Hi Hf].
  apply String.eqb_eq in Hi, Hf. apply Nat.eqb_eq in Hlen.
  subst. auto.
Qed.

Lemma filed_listing_ids (db : Map obj) :
  all_filed_under_id db = true ->
  ids_of (map summary (Map_values db)) = map VStr (Map_keys db).
Proof.
  unfold all_filed_under_id, Map_values, Map_keys.
  induction db as [| [k o] db IH]; simpl; auto.
  intros H. apply andb_true_iff in H as [H0 Hrest].
  rewrite IH by exact Hrest. f_equal.
  rewrite get_prop_rest_without_other by reflexivity.
  unfold filed_under_id in H0. cbv [fst snd] in H0.
  destruct (get_prop "id" o) as [| | | i | | | |]; try discriminate.
  destruct (get_prop "filename" o) as [| | | f | | | |]; try discriminate.
  apply andb_true_iff in H0 as [H0 _].
  apply andb_true_iff in H0 as [H0 _].
  apply andb_true_iff in H0 as [Hi _].
  apply String.eqb_eq in Hi. now subst.
Qed.

Lemma NoDup_map_VStr (l : list string) : NoDup l -> NoDup (map VStr l).
Proof.
  induction 1 as [| x l Hnotin Hnd IH]; simpl; constructor; auto.
  intros Hin. apply in_map_iff in Hin as (y & Hy & Hin).
  injection Hy as ->. contradiction.
Qed.

(** X12. In every store reached from a cold start, a record is filed under its
    own identifier: the info answer for a stored identifier names that very
    identifier as [id] and [filename], every stored identifier is 32
    hexadecimal digits, and [GET /files] lists the stored identifiers, each
    once. Both variants. *)
Theorem stored_records_are_filed_under_their_id :
  (forall reqs env hdrs,
      let st := Api.run reqs Api.init in
      (forall k, Map_has k (Api.fileDatabase st) = true ->
         let info := snd (Api.app env (request hdrs (GET_info k)) st) in
         data_field "id" info = VStr k
         /\ data_field "filename" info = VStr k
         /\ String.length k = 32%nat /\ Crypto.all_hex k = true)
      /\ exists items,
           listing (snd (Api.app env (request hdrs GET_files) st)) = Some items
           /\ ids_of items = map VStr (Map_keys (Api.fileDatabase st))
           /\ NoDup (ids_of items))
  /\ (forall reqs env hdrs,
      let st := Part000.run reqs Part000.init in
      (forall k, Map_has k (Part000.fileDatabase st) = true ->
         let info := snd (Part000.app env (request hdrs (GET_info k)) st) in
         data_field "id" info = VStr k
         /\ data_field "filename" info = VStr k
         /\ String.length k = 32%nat /\ Crypto.all_hex k = true)
      /\ exists items,
           listing (snd (Part000.app env (request hdrs GET_files) st))
           = Some items
           /\ ids_of items = map VStr (Map_keys (Part000.fileDatabase st))
           /\ NoDup (ids_of items)).
Proof.
  split; intros reqs env hdrs st.
  - destruct (Api_run_filed reqs Api.init eq_refl (NoDup_nil _)) as [Hf Hwf].
    fold st in Hf, Hwf. split.
    + intros k Hk info. subst info.
      unfold Map_has in Hk.
      destruct (Map_get k (Api.fileDatabase st)) as [o |] eqn:Hget;
        [| discriminate].
      destruct (filed_lookup _ _ _ Hf Hget) as (Hi & Hn & Hlen & Hhex).
      unfold Api.app, request, route; rewrite Api_opened_runs; unfold Api.get_info. rewrite Hget.
      unfold data_field, data_of. simpl.
      rewrite !get_prop_rest_without_other by reflexivity. auto.
    + exists (map summary (Map_values (Api.fileDatabase st))).
      split; [reflexivity |].
      rewrite (filed_listing_ids _ Hf). split; [reflexivity |].
      now apply NoDup_map_VStr.
  - destruct (Part000_run_filed reqs Part000.init eq_refl (NoDup_nil _))
      as [Hf Hwf].
    fold st in Hf, Hwf. split.
    + intros k Hk info. subst info.
      unfold Map_has in Hk.
      destruct (Map_get k (Part000.fileDatabase st)) as [o |] eqn:Hget;
        [| discriminate].
      destruct (filed_lookup _ _ _ Hf Hget) as (Hi & Hn & Hlen & Hhex).
      unfold Part000.app, request, route, Part000.get_info. rewrite Hget.
      unfold data_field, data_of. simpl.
      rewrite !get_prop_rest_without_other by reflexivity. auto.
    + exists (map summary (Map_values (Part000.fileDatabase st))).
      split; [reflexivity |].
      rewrite (filed_listing_ids _ Hf). split; [reflexivity |].
      now apply NoDup_map_VStr.
Qed.

Lemma filed_under_id_witness :
  let env := env_of x00 "2024-01-01T00:00:09.000Z" in
  data_field "id"
    (snd (Api.app env
            (request [] (GET_info "02020202020202020202020202020202"))
            (Api.run distinct_uploads Api.init)))
  = VStr "02020202020202020202020202020202"
  /\ data_field "id"
       (snd (Part000.app env
               (request [] (GET_info "01010101010101010101010101010101"))
               (Part000.run distinct_uploads Part000.init)))
     = VStr "01010101010101010101010101010101".
Proof.
  intros env. split.
  - apply (proj1 (proj1 stored_records_are_filed_under_their_id
                    distinct_uploads env [])
             "02020202020202020202020202020202").
    reflexivity.
  - apply (proj1 (proj2 stored_records_are_filed_under_their_id
                    distinct_uploads env [])
             "01010101010101010101010101010101").
    reflexivity.
Defined.

End FiledUnderId.

(** ** What an upload records and what later answers show *)

Section Metadata.
Import JS Express Props Obs.

(** The info answer for a stored record shows every property of the record
    but [buffer]. *)
Lemma Api_info_field env hdrs st k fileInfo key :
  Map_get k (Api.fileDatabase st) = Some fileInfo ->
  String.eqb "buffer" key = false ->
  data_field key (snd (Api.app env (request hdrs (GET_info k)) st))
  = get_prop key fileInfo.
Proof.
  intros Hget Hkey.
  unfold Api.app, request, route; rewrite Api_opened_runs.
  unfold Api.get_info. rewrite Hget.
  unfold data_field, data_of. simpl.
  now apply get_prop_rest_without_other.
Qed.

Lemma Part000_info_field env hdrs st k fileInfo key :
  Map_get k (Part000.fileDatabase st) = Some fileInfo ->
  String.eqb "buffer" key = false ->
  data_field key (snd (Part000.app env (request hdrs (GET_info k)) st))
  = get_prop key fileInfo.
Proof.
  intros Hget Hkey.
  unfold Part000.app, request, route, Part000.get_info. rewrite Hget.
  unfold data_field, data_of. simpl.
  now apply get_prop_rest_without_other.
Qed.

(** X13. Both variants record the file name and the type multer's parser
    read from the part, [text/plain] for a part that declares no type. multer hands over no
    file without a name, so a recorded name or type is never empty and the
    fallbacks [unknown] and [application/octet-stream] of
    [src/api/index.js] never come into play. Read back through
    [GET /info/:id]. *)
Theorem recorded_name_and_type :
  (forall env req p st env' hdrs,
      route req = POST_upload (Some p) ->
      accepted (20 * 1024 * 1024) p = true ->
      let info :=
        snd (Api.app env' (request hdrs (GET_info (generated_id env)))
               (fst (Api.app env req st))) in
      data_field "originalName" info = VStr (Multer.part_filename p)
      /\ data_field "mimetype" info
         = VStr (match Multer.part_mimetype p with
                 | EmptyString => "text/plain"
                 | declared => declared
                 end)
      /\ truthy (data_field "originalName" info) = true
      /\ truthy (data_field "mimetype" info) = true)
  /\ (forall env req p st env' hdrs,
      route req = POST_upload (Some p) ->
      accepted (25 * 1024 * 1024) p = true ->
      let info :=
        snd (Part000.app env' (request hdrs (GET_info (generated_id env)))
               (fst (Part000.app env req st))) in
      data_field "originalName" info = VStr (Multer.part_filename p)
      /\ data_field "mimetype" info
         = VStr (match Multer.part_mimetype p with
                 | EmptyString => "text/plain"
                 | declared => declared
                 end)
      /\ truthy (data_field "originalName" info) = true
      /\ truthy (data_field "mimetype" info) = true).
Proof.
  split; intros env req p st env' hdrs Hr Hacc info; subst info;
    pose proof (accepted_name_truthy _ _ Hacc) as Hname;
    pose proof (memoryStorage_mimetype_truthy p) as Htype.
  - destruct (Api_upload_accepted env req p st Hr Hacc) as (-> & _).
    destruct (Api_record_of_accepted env req _ p Hacc) as (Hon & Hmt & _).
    match goal with
    | |- context [Api.app env' _ ?s] =>
        assert (Hg : Map_get (generated_id env) (Api.fileDatabase s)
                     = Some (snd (Api.make_fileInfo env req
                                    (Multer.memoryStorage p))))
          by apply Map_get_set_same;
        rewrite !(Api_info_field env' hdrs s _ _ _ Hg) by reflexivity
    end.
    rewrite Hon, Hmt, Hname, Htype. repeat split.
  - destruct (Part000_upload_accepted env req p st Hr Hacc) as (-> & _).
    destruct (Part000_record_of_accepted env req p) as (Hon & Hmt & _).
    match goal with
    | |- context [Part000.app env' _ ?s] =>
        assert (Hg : Map_get (generated_id env) (Part000.fileDatabase s)
                     = Some (snd (Part000.make_fileInfo env req
                                    (Multer.memoryStorage p))))
          by apply Map_get_set_same;
        rewrite !(Part000_info_field env' hdrs s _ _ _ Hg) by reflexivity
    end.
    rewrite Hon, Hmt, Hname, Htype. repeat split.
Qed.

Lemma recorded_name_witness :
  let env := env_of x01 "2024-01-01T00:00:00.000Z" in
  let untyped := {| Multer.part_fieldname := "file";
                    Multer.part_filename := "notes";
                    Multer.part_mimetype := EmptyString;
                    Multer.part_data := [x61] |} in
  let ask := request [] (GET_info "01010101010101010101010101010101") in
  data_field "mimetype"
    (snd (Api.app env ask
            (fst (Api.app env (upload_request [] (Some untyped)) Api.init))))
  = VStr "text/plain"
  /\ data_field "originalName"
       (snd (Part000.app env ask
               (fst (Part000.app env (upload_request [] (Some untyped))
                       Part000.init))))
     = VStr "notes".
Proof.
  intros env untyped ask. split.
  - apply (proj1 recorded_name_and_type env
             (upload_request [] (Some untyped)) untyped Api.init env []
             eq_refl).
    reflexivity.
  - apply (proj2 recorded_name_and_type env
             (upload_request [] (Some untyped)) untyped Part000.init env []
             eq_refl).
    reflexivity.
Defined.

(** X14. What the upload answer of [src/api/index.js] says about the file is
    what [GET /info/:id] says afterwards: the two agree on [id],
    [originalName], [mimetype], [size], [url] and [uploadDate]. In
    [src/unnamed/part_000] the two agree on every property but [buffer]. *)
Theorem upload_answer_agrees_with_info :
  (forall env req p st env' hdrs k,
      route req = POST_upload (Some p) ->
      accepted (20 * 1024 * 1024) p = true ->
      In k ["id"; "originalName"; "mimetype"; "size"; "url"; "uploadDate"] ->
      data_field k (snd (Api.app env req st))
      = data_field k
          (snd (Api.app env' (request hdrs (GET_info (generated_id env)))
                  (fst (Api.app env req st)))))
  /\ (forall env req p st env' hdrs k,
      route req = POST_upload (Some p) ->
      accepted (25 * 1024 * 1024) p = true ->
      k <> "buffer" ->
      data_field k (snd (Part000.app env req st))
      = data_field k
          (snd (Part000.app env' (request hdrs (GET_info (generated_id env)))
                  (fst (Part000.app env req st))))).
Proof.
  split; intros env req p st env' hdrs k Hr Hfit Hk.
  - destruct (Api_upload_accepted env req p st Hr Hfit) as (Hst & _ & Hd).
    rewrite Hst. unfold data_field at 1. rewrite Hd.
    unfold Api.app, request, route; rewrite Api_opened_runs; unfold Api.get_info.
    cbv [Api.fileDatabase]. rewrite Map_get_set_same.
    simpl in Hk.
    destruct Hk as [<- | [<- | [<- | [<- | [<- | [<- | []]]]]]];
      reflexivity.
  - destruct (Part000_upload_accepted env req p st Hr Hfit) as (Hst & _ & Hd).
    rewrite Hst. unfold data_field at 1. rewrite Hd.
    unfold Part000.app, request, route, Part000.get_info.
    cbv [Part000.fileDatabase]. rewrite Map_get_set_same.
    unfold data_field, data_of. cbv [snd body json get_prop String.eqb
                                     Ascii.eqb Bool.eqb].
    symmetry. apply get_prop_rest_without_other.
    apply String.eqb_neq. congruence.
Qed.

Lemma upload_answer_agrees_witness :
  let env := env_of x01 "2024-01-01T00:00:00.000Z" in
  let up := upload_request [] (Some (part_of "a.txt" [x61])) in
  let ask := request [] (GET_info "01010101010101010101010101010101") in
  data_field "size" (snd (Api.app env up Api.init))
  = data_field "size" (snd (Api.app env ask (fst (Api.app env up Api.init))))
  /\ data_field "filename" (snd (Part000.app env up Part000.init))
     = data_field "filename"
         (snd (Part000.app env ask (fst (Part000.app env up Part000.init)))).
Proof.
  intros env up ask. split.
  - apply (proj1 upload_answer_agrees_with_info env up (part_of "a.txt" [x61])
             Api.init env [] "size" eq_refl).
    + reflexivity.
    + simpl. tauto.
  - apply (proj2 upload_answer_agrees_with_info env up (part_of "a.txt" [x61])
             Part000.init env [] "filename" eq_refl).
    + reflexivity.
    + discriminate.
Defined.

End Metadata.

(** ** The size check of the upload handler, and the health count *)

Section Served.
Import JS Express Props Obs.

(** X16. The size check inside the upload handler of [src/api/index.js]
    never answers a request: multer enforces the same 20MB limit first, so
    the handler's message for an oversized file appears in no response, and
    a named part in field [file] of 20MB or more is always answered with
    the error middleware's message. *)
Theorem handler_size_check_never_answers :
  (forall env req st,
      envelope_field "message" (snd (Api.app env req st))
      <> VStr "File terlalu besar. Maksimal 20MB")
  /\ (forall env req p st,
      route req = POST_upload (Some p) ->
      truthy (VStr (Multer.part_filename p)) = true ->
      Multer.part_fieldname p = "file" ->
      20 * 1024 * 1024 <= Z.of_nat (List.length (Multer.part_data p)) ->
      envelope_field "message" (snd (Api.app env req st))
      = VStr "File terlalu besar").
Proof.
  split.
  - intros env req st. unfold Api.app.
    destruct (route req) as [body | k | k | | k | | | path | code |];
      try rewrite Api_opened_runs; try discriminate.
    + unfold Api.upload.
      destruct (accepted_or_not (20 * 1024 * 1024) body)
        as [(p & -> & Hacc) | Hrej].
      * pose proof (accepted_length _ _ Hacc) as Hlen.
        rewrite (single_accepted _ _ Hacc). unfold Api.post_upload.
        change (Multer.size (Multer.memoryStorage p))
          with (Z.of_nat (List.length (Multer.part_data p))).
        destruct (Z.ltb_spec (20 * 1024 * 1024)
                    (Z.of_nat (List.length (Multer.part_data p))));
          [lia | discriminate].
      * destruct body as [p |]; [| discriminate].
        destruct (single_not_accepted _ _ (Hrej p eq_refl))
          as [-> | [c ->]]; [discriminate |].
        unfold Api.error_middleware.
        destruct (String.eqb c "LIMIT_FILE_SIZE"); discriminate.
    + cbn [snd]. unfold envelope_field.
      destruct (Map_get k (Api.fileDatabase st)) as [fileInfo |] eqn:Hk.
      * destruct (Api_get_file_stored k st api_opened fileInfo Hk)
          as [Hok Hfail].
        destruct (header_value_ok (get_prop "mimetype" fileInfo)
                  && header_value_ok (get_prop "size" fileInfo)
                  && header_text_ok (disposition fileInfo)).
        -- destruct (Hok eq_refl) as (_ & -> & _). discriminate.
        -- destruct (Hfail eq_refl) as (_ & -> & _). discriminate.
      * unfold Api.get_file. rewrite Hk. discriminate.
    + unfold Api.get_info.
      destruct (Map_get k (Api.fileDatabase st)); discriminate.
    + unfold Api.delete_file, Map_delete.
      destruct (Map_has k (Api.fileDatabase st)); discriminate.
  - intros env req p st Hr Hname Hfield Hbig.
    now rewrite (Api_upload_too_large env req p st Hr Hname Hfield Hbig).
Qed.

(** Size alone does not decide: multer skips a part without a file name
    before it counts a byte of it, and the handler answers that no file was
    uploaded. *)
Example nameless_oversized_part_is_no_file :
  forall env st,
    let res := snd (Api.app env
                      (upload_request [] (Some nameless_oversized_part)) st) in
    status res = 400
    /\ envelope_field "message" res = VStr "Tidak ada file yang diupload".
Proof.
  intros env st res. subst res.
  unfold Api.app, upload_request, route. rewrite Api_opened_runs.
  split; reflexivity.
Qed.


(** X17. The health answer of [src/unnamed/part_000] counts what [GET /files]
    lists: its [filesCount] is the number of items of the listing of the
    same store. *)
Theorem Part000_health_counts_the_listing :
  forall env hdrs env' hdrs' st,
    exists items,
      listing (snd (Part000.app env (request hdrs GET_files) st)) = Some items
      /\ envelope_field "filesCount"
           (snd (Part000.app env' (request hdrs' GET_health) st))
         = VNum (Z.of_nat (List.length items)).
Proof.
  intros env hdrs env' hdrs' st.
  exists (map summary (Map_values (Part000.fileDatabase st))).
  split; [reflexivity |].
  unfold Part000.app, request, route, Part000.get_health, envelope_field.
  simpl. unfold Map_size, Map_values. now rewrite !length_map.
Qed.

End Served.

(** ** Where payload bytes can leave *)

Section PayloadRoutes.
Import JS Express Props Obs.

(** X18. In [src/api/index.js] stored bytes leave by one door: every response
    is free of payload except the answer of [GET /file/:id] for a stored
    identifier. *)
Theorem Api_payload_leaves_only_by_file_route :
  forall env req st,
    response_payload_free (snd (Api.app env req st)) = false ->
    exists fileId,
      route req = GET_file fileId
      /\ Map_has fileId (Api.fileDatabase st) = true.
Proof.
  intros env req st.
  destruct (route req) as [body | k | k | | k | | | path | code |] eqn:Hr.
  - rewrite (Api_upload_response_payload_free env req body st Hr).
    discriminate.
  - unfold Api.app. rewrite Hr, Api_opened_runs.
    destruct (Map_get k (Api.fileDatabase st)) eqn:Hk.
    + intros _. exists k. unfold Map_has. rewrite Hk. split; reflexivity.
    + unfold Api.get_file. rewrite Hk. discriminate.
  - unfold Api.app. rewrite Hr, Api_opened_runs. unfold Api.get_info.
    destruct (Map_get k (Api.fileDatabase st)); [| discriminate].
    unfold response_payload_free. simpl.
    rewrite has_prop_rest_without. discriminate.
  - unfold Api.app. rewrite Hr, Api_opened_runs. cbn [snd].
    assert (H : response_payload_free (Api.get_files st api_opened)
                = true).
    { unfold Api.get_files, response_payload_free. simpl.
      apply (forallb_payload_free_summaries (Api.fileDatabase st)). }
    rewrite H. discriminate.
  - unfold Api.app. rewrite Hr, Api_opened_runs.
    unfold Api.delete_file, Map_delete.
    destruct (Map_has k (Api.fileDatabase st)); discriminate.
  - unfold Api.app. rewrite Hr, Api_opened_runs. discriminate.
  - unfold Api.app. rewrite Hr, Api_opened_runs. discriminate.
  - unfold Api.app. rewrite Hr, Api_opened_runs. discriminate.
  - unfold Api.app. rewrite Hr. discriminate.
  - unfold Api.app. rewrite Hr, Api_opened_runs. discriminate.
Qed.

End PayloadRoutes.

(** ** Worked instances *)

Section Instances.
Import JS Express Props Obs.

Lemma payload_route_witness :
  let env := env_of x01 "2024-01-01T00:00:00.000Z" in
  let st := fst (Api.app env (upload_request [] (Some (part_of "a" [x61])))
                   Api.init) in
  exists fileId,
    route (request [] (GET_file "01010101010101010101010101010101"))
    = GET_file fileId
    /\ Map_has fileId (Api.fileDatabase st) = true.
Proof.
  intros env st.
  apply (Api_payload_leaves_only_by_file_route env
           (request [] (GET_file "01010101010101010101010101010101")) st).
  reflexivity.
Defined.

Lemma handler_size_check_witness :
  envelope_field "message"
    (snd (Api.app (env_of x01 "2024-01-01T00:00:00.000Z")
            (upload_request [] (Some oversized_part)) Api.init))
  = VStr "File terlalu besar".
Proof.
  apply (proj2 handler_size_check_never_answers
           (env_of x01 "2024-01-01T00:00:00.000Z")
           (upload_request [] (Some oversized_part)) oversized_part Api.init
           eq_refl eq_refl eq_refl).
  pose proof oversized_part_length. lia.
Defined.

Lemma Part000_never_shrinks_witness :
  let env := env_of x01 "2024-01-01T00:00:00.000Z" in
  let st := fst (Part000.app env
                   (upload_request [] (Some (part_of "a" [x61])))
                   Part000.init) in
  let later :=
    [(env, request [] (DELETE_file "01010101010101010101010101010101"));
     (env_of x02 "2024-01-01T00:00:01.000Z",
      upload_request [] (Some (part_of "b" [x62])))] in
  Map_has "01010101010101010101010101010101"
    (Part000.fileDatabase (Part000.run later st)) = true.
Proof.
  intros env st later.
  apply (proj1 (Part000_store_never_shrinks later st)
           "01010101010101010101010101010101").
  reflexivity.
Defined.

End Instances.
